(** * GitCells documentation viewer ([docs/view.py])

    A shallow embedding of the documentation server script and the
    properties its specification states about it.

    The script is forty lines of glue around Python's standard library:
    a request handler class [DocHandler] that overrides [do_GET] of
    [http.server.SimpleHTTPRequestHandler], and a [__main__] block that
    checks that the built documentation exists, opens a browser and runs
    a [socketserver.TCPServer].  The embedding keeps that shape:

    - the environment the script acts on (file system, working
      directory, TCP ports, browser, standard output, the socket) is a
      record [world], threaded through a small state-and-exception
      monad [M];
    - every library call the script makes is one primitive of [M];
    - the base class is an interface ([StaticResponder]) the handler is
      parameterised by, the way the Python class is by inheritance;
    - the serve loop consumes a finite list of incoming events and ends
      in the result [Pending] when the list is exhausted: the process is
      then still blocked in [serve_forever].

    Paths are POSIX paths.  [__file__] is whatever the interpreter set
    it to: an absolute path since Python 3.9, possibly a relative one
    before; nothing below assumes either unless it says so. *)

From Stdlib Require Import ZArith String Ascii List Bool Lia DecimalString.
From stdpp Require Import base option list gmap strings.

Local Open Scope string_scope.
Local Open Scope Z_scope.
Local Open Scope list_scope.

(** ** Paths ([posixpath]) *)

Module Path.

Definition is_sep (c : ascii) : bool := Ascii.eqb c "/"%char.

Fixpoint drop_while {A} (f : A -> bool) (l : list A) : list A :=
  match l with
  | [] => []
  | x :: l' => if f x then drop_while f l' else l
  end.

(** [s.rstrip('/')] on a list of characters. *)
Definition rstrip_sep (cs : list ascii) : list ascii :=
  rev (drop_while is_sep (rev cs)).

(** [p[:p.rfind('/') + 1]] *)
Definition head_upto_sep (cs : list ascii) : list ascii :=
  rev (drop_while (fun c => negb (is_sep c)) (rev cs)).

(** [posixpath.dirname]:
<<
    i = p.rfind('/') + 1
    head = p[:i]
    if head and head != '/' * len(head):
        head = head.rstrip('/')
    return head
>> *)
Definition dirname (p : string) : string :=
  let head := head_upto_sep (list_ascii_of_string p) in
  match head with
  | [] => ""
  | _ :: _ =>
      if forallb is_sep head then string_of_list_ascii head
      else string_of_list_ascii (rstrip_sep head)
  end.

Definition startswith_sep (p : string) : bool :=
  match p with
  | String c _ => is_sep c
  | EmptyString => false
  end.

Definition endswith_sep (p : string) : bool :=
  match rev (list_ascii_of_string p) with
  | c :: _ => is_sep c
  | [] => false
  end.

(** [posixpath.join] at two arguments:
<<
    if b.startswith('/'):  path = b
    elif not path or path.endswith('/'):  path += b
    else:  path += '/' + b
>> *)
Definition join (a b : string) : string :=
  if startswith_sep b then b
  else if String.eqb a "" || endswith_sep a then a +:+ b
  else a +:+ "/" +:+ b.

(** The components of a path, split at every ['/'] (empty components
    are kept: ["/a//b"] gives [""; "a"; ""; "b"]). *)
Fixpoint split_sep (cs : list ascii) : list (list ascii) :=
  match cs with
  | [] => [[]]
  | c :: cs' =>
      if is_sep c then [] :: split_sep cs'
      else match split_sep cs' with
           | w :: ws => (c :: w) :: ws
           | [] => [[c]]
           end
  end.

Definition components (p : string) : list string :=
  map string_of_list_ascii (split_sep (list_ascii_of_string p)).

End Path.


(** ** The environment *)

(** A file-system entry: a regular file with its bytes, or a directory. *)
Inductive node :=
| File (content : list Byte.byte)
| Dir.

(** A resolved location: the names from the root down ([[]] is ["/"]). *)
Abbreviation fs_path := (list string).

Inductive errno := ENOENT | ENOTDIR | EISDIR | EADDRINUSE.

Inductive exn :=
| OSError (e : errno)
| KeyboardInterrupt
| HandlerError (what : string).

(** What a handler puts on the connection, one constructor per method
    of [BaseHTTPRequestHandler] the script calls. *)
Inductive wire :=
| SendResponse (code : Z)
| SendHeader (keyword value : string)
| EndHeaders
| WfileWrite (data : list Byte.byte).

(** Everything the process does that can be seen from outside it, in
    the order it happens. *)
Inductive effect :=
| Stdout (line : string)
| Chdir (d : fs_path)
| Stat (p : string) (found : bool)
| ReadFile (p : string)
| OpenBrowser (url : string) (launched : bool)
| Bind (host : string) (port : Z)
| CloseSocket
| Wire (e : wire).

Record world := World {
  w_fs : gmap fs_path node;          (* the file system *)
  w_cwd : fs_path;                   (* the working directory of the process *)
  w_argv : list string;              (* the command line *)
  w_browser : bool;                  (* can a browser be launched here? *)
  w_busy : list Z;                   (* TCP ports somebody else holds *)
  w_listen : option (string * Z);    (* the listening socket of this process *)
  w_trace : list effect;             (* effects so far, oldest first *)
}.

Definition set_cwd (d : fs_path) (w : world) : world :=
  World (w_fs w) d (w_argv w) (w_browser w) (w_busy w) (w_listen w) (w_trace w).

Definition set_argv (a : list string) (w : world) : world :=
  World (w_fs w) (w_cwd w) a (w_browser w) (w_busy w) (w_listen w) (w_trace w).

Definition set_browser (b : bool) (w : world) : world :=
  World (w_fs w) (w_cwd w) (w_argv w) b (w_busy w) (w_listen w) (w_trace w).

Definition set_listen (l : option (string * Z)) (w : world) : world :=
  World (w_fs w) (w_cwd w) (w_argv w) (w_browser w) (w_busy w) l (w_trace w).

Definition log (es : list effect) (w : world) : world :=
  World (w_fs w) (w_cwd w) (w_argv w) (w_browser w) (w_busy w) (w_listen w)
        (w_trace w ++ es).

(** *** Path resolution, as the kernel does it (no symbolic links) *)

(** Walk [comps] from the directory [cur]: every prefix walked through
    has to be a directory. *)
Fixpoint walk (fs : gmap fs_path node) (cur : fs_path) (comps : list string)
  : errno + fs_path :=
  match comps with
  | [] => inr cur
  | c :: rest =>
      match fs !! cur with
      | Some Dir =>
          if String.eqb c "" || String.eqb c "." then walk fs cur rest
          else if String.eqb c ".." then walk fs (removelast cur) rest
          else walk fs (cur ++ [c]) rest
      | Some (File _) => inl ENOTDIR
      | None => inl ENOENT
      end
  end.

Definition resolve (fs : gmap fs_path node) (cwd : fs_path) (p : string)
  : errno + fs_path :=
  if String.eqb p "" then inl ENOENT
  else walk fs (if Path.startswith_sep p then [] else cwd) (Path.components p).

Definition stat (fs : gmap fs_path node) (cwd : fs_path) (p : string)
  : errno + node :=
  match resolve fs cwd p with
  | inl e => inl e
  | inr q => match fs !! q with
             | Some n => inr n
             | None => inl ENOENT
             end
  end.

(** ** The monad of the script *)

(** How a computation ends: normally, by an exception, by [exit(code)],
    or not at all within the events supplied ([Pending]: blocked in the
    accept loop). *)
Inductive res (A : Type) :=
| Ok (a : A)
| Raise (e : exn)
| Exit (code : Z)
| Pending.
Arguments Ok {A} a.
Arguments Raise {A} e.
Arguments Exit {A} code.
Arguments Pending {A}.

Definition M (A : Type) : Type := world -> res A * world.

Definition ret {A} (a : A) : M A := fun w => (Ok a, w).

Definition bind {A B} (c : M A) (k : A -> M B) : M B :=
  fun w =>
    match c w with
    | (Ok a, w') => k a w'
    | (Raise e, w') => (Raise e, w')
    | (Exit n, w') => (Exit n, w')
    | (Pending, w') => (Pending, w')
    end.

#[global] Instance M_ret : MRet M := @ret.
#[global] Instance M_bind : MBind M := fun A B k c => bind c k.

Definition raise {A} (e : exn) : M A := fun w => (Raise e, w).

Definition emit (e : effect) : M unit := fun w => (Ok tt, log [e] w).

(** [try: c  except KeyboardInterrupt: h] *)
Definition try_except_KeyboardInterrupt (c h : M unit) : M unit :=
  fun w =>
    match c w with
    | (Raise KeyboardInterrupt, w') => h w'
    | rw => rw
    end.

(** [try: c  finally: k], the shape of a [with] block: [k] runs however
    [c] ends, and [c]'s way of ending is kept unless [k] itself fails. *)
Definition finally (c k : M unit) : M unit :=
  fun w =>
    match c w with
    | (Pending, w') => (Pending, w')
    | (r, w') =>
        match k w' with
        | (Ok _, w'') => (r, w'')
        | rw => rw
        end
    end.

(** The status the operating system sees when the script ends: 0 at
    the end of the script, the argument of [exit], 1 after an exception
    nobody caught; none while the process runs. *)
Definition exit_status {A} (r : res A) : option Z :=
  match r with
  | Ok _ => Some 0
  | Exit n => Some n
  | Raise _ => Some 1
  | Pending => None
  end.

(** ** Library calls *)

(** [print(line)] *)
Definition print (line : string) : M unit := emit (Stdout line).

(** [exit(code)] *)
Definition exit {A} (code : Z) : M A := fun w => (Exit code, w).

(** [os.chdir(p)] *)
Definition os_chdir (p : string) : M unit :=
  fun w =>
    match resolve (w_fs w) (w_cwd w) p with
    | inl e => (Raise (OSError e), w)
    | inr d =>
        match w_fs w !! d with
        | Some Dir => (Ok tt, log [Chdir d] (set_cwd d w))
        | Some (File _) => (Raise (OSError ENOTDIR), w)
        | None => (Raise (OSError ENOENT), w)
        end
    end.

(** [os.path.exists(p)]: any failure of [stat] reads as [False]. *)
Definition os_path_exists (p : string) : M bool :=
  fun w =>
    let b := match stat (w_fs w) (w_cwd w) p with inr _ => true | inl _ => false end in
    (Ok b, log [Stat p b] w).

(** [with open(p, 'rb') as f: f.read()] *)
Definition read_binary (p : string) : M (list Byte.byte) :=
  fun w =>
    match stat (w_fs w) (w_cwd w) p with
    | inr (File bs) => (Ok bs, log [ReadFile p] w)
    | inr Dir => (Raise (OSError EISDIR), w)
    | inl e => (Raise (OSError e), w)
    end.

(** [webbrowser.open(url)]: returns whether a browser was launched. *)
Definition webbrowser_open (url : string) : M bool :=
  fun w => (Ok (w_browser w), log [OpenBrowser url (w_browser w)] w).

(** [socketserver.TCPServer((host, port), Handler)]: the constructor
    binds and listens, or raises. *)
Definition TCPServer (host : string) (port : Z) : M unit :=
  fun w =>
    if existsb (Z.eqb port) (w_busy w) then (Raise (OSError EADDRINUSE), w)
    else (Ok tt, log [Bind host port] (set_listen (Some (host, port)) w)).

(** [httpd.server_close()], what leaving the [with] block does. *)
Definition server_close : M unit :=
  fun w => (Ok tt, log [CloseSocket] (set_listen None w)).

(** [str(n)] for an integer. *)
Definition str (n : Z) : string := NilZero.string_of_int (Z.to_int n).

(** The newline character. *)
Definition nl : string := String (ascii_of_nat 10) EmptyString.

(** ** Requests and responses *)

(** What the handler reads of a request: [self.path], the request
    target as the library stored it, and the request headers. *)
Record request := Request {
  path : string;
  headers : list (string * string);
}.

Definition send_response (code : Z) : M unit := emit (Wire (SendResponse code)).
Definition send_header (keyword value : string) : M unit :=
  emit (Wire (SendHeader keyword value)).
Definition end_headers : M unit := emit (Wire EndHeaders).
Definition wfile_write (data : list Byte.byte) : M unit := emit (Wire (WfileWrite data)).

(** The part of a trace that went over the connection. *)
Definition wire_of (es : list effect) : list wire :=
  omap (fun e => match e with Wire x => Some x | _ => None end) es.

(** Status, headers and body of a response, read off what was sent. *)
Definition status_of (ws : list wire) : option Z :=
  head (omap (fun x => match x with SendResponse c => Some c | _ => None end) ws).

Definition headers_of (ws : list wire) : list (string * string) :=
  omap (fun x => match x with SendHeader k v => Some (k, v) | _ => None end) ws.

Definition body_of (ws : list wire) : list Byte.byte :=
  concat (omap (fun x => match x with WfileWrite d => Some d | _ => None end) ws).

(** The base class [http.server.SimpleHTTPRequestHandler], which is
    library code.  Modelled from the spec: a conventional handler that
    maps URL paths to files under a root directory and returns their
    bytes or a not-found response.  It reads the file system and the
    working directory, writes to the connection, and may fail. *)
Class StaticResponder := {
  translate_path : fs_path -> string -> fs_path;
  respond : gmap fs_path node -> fs_path -> request -> list wire * option string;
}.

(** Modelled from the spec: the default behaviours of that responder
    the specification relies on: paths resolve under the root, an
    existing file comes back with status 200 and its bytes, a missing
    one with status 404. *)
Class StandardResponder (R : StaticResponder) := {
  translate_under_root : forall root p, root `prefix_of` translate_path root p;
  respond_file : forall fs root r bs,
    fs !! translate_path root (path r) = Some (File bs) ->
    status_of (respond fs root r).1 = Some 200 /\ body_of (respond fs root r).1 = bs;
  respond_missing : forall fs root r,
    fs !! translate_path root (path r) = None ->
    status_of (respond fs root r).1 = Some 404;
}.

(** What arrives while the server waits: a GET request, or the
    interrupt signal (Ctrl+C). *)
Inductive incoming :=
| Get (r : request)
| Interrupt.

(** ** The script *)

Definition PORT : Z := 8080.

Section Script.

(** The path the script was started from, and the base class. *)
Context (__file__ : string) {R : StaticResponder}.

(** [super().do_GET()] *)
Definition super_do_GET (self : request) : M unit :=
  fun w =>
    let out := respond (w_fs w) (w_cwd w) self in
    (match out.2 with
     | None => Ok tt
     | Some what => Raise (HandlerError what)
     end,
     log (map Wire out.1) w).

(** [DocHandler.do_GET] *)
Definition do_GET (self : request) : M unit :=
  if String.eqb (path self) "/" || String.eqb (path self) "/index.html" then
    let html_path := Path.join (Path.dirname __file__) "../dist/gitcells-docs.html" in
    found ← os_path_exists html_path;
    if found : bool then
      send_response 200;;
      send_header "Content-type" "text/html";;
      end_headers;;
      data ← read_binary html_path;
      wfile_write data
    else
      super_do_GET self
  else
    super_do_GET self.

(** What the library does between the request line and [do_GET]
    ([BaseHTTPRequestHandler.parse_request], which is library code):
    [self.path] is the request target as sent, query string and all,
    but for a leading run of slashes, which is cut down to one:
<<
    if self.path.startswith('//'):
        self.path = '/' + self.path.lstrip('/')
>> *)
Definition parse_request_path (target : string) : string :=
  match list_ascii_of_string target with
  | c1 :: c2 :: _ =>
      if Path.is_sep c1 && Path.is_sep c2 then
        "/" +:+ string_of_list_ascii
                  (Path.drop_while Path.is_sep (list_ascii_of_string target))
      else target
  | _ => target
  end.

(** A GET as it comes over the connection, with the request target as
    the client sent it: the library fills in [self.path] and calls
    [do_GET]. *)
Definition handle_one_request (target : string) (hdrs : list (string * string))
  : M unit :=
  do_GET (Request (parse_request_path target) hdrs).

(** One turn of the loop in [socketserver]: an ordinary exception of
    the handler is reported and dropped ([handle_error]), anything else
    goes through. *)
Definition process_request (h : M unit) : M unit :=
  fun w =>
    match h w with
    | (Raise KeyboardInterrupt, w') => (Raise KeyboardInterrupt, w')
    | (Raise _, w') => (Ok tt, w')
    | rw => rw
    end.

(** [httpd.serve_forever()] over the events that arrive. *)
Fixpoint serve_forever (events : list incoming) : M unit :=
  match events with
  | [] => fun w => (Pending, w)
  | Interrupt :: _ => raise KeyboardInterrupt
  | Get r :: rest => process_request (do_GET r);; serve_forever rest
  end.

(** The [__main__] block. *)
Definition main (events : list incoming) : M unit :=
  os_chdir (Path.dirname __file__);;
  print "📚 GitCells Documentation Viewer";;
  print ("🌐 Starting server at http://localhost:" +:+ str PORT);;
  print ("Press Ctrl+C to stop" +:+ nl);;
  let html_path := Path.join (Path.dirname __file__) "../dist/gitcells-docs.html" in
  found ← os_path_exists html_path;
  (if negb found then
     print "⚠️  Documentation not built yet!";;
     print "Run one of these commands first:";;
     print "  - node docs/build.js";;
     print "  - ./scripts/build-docs.sh";;
     exit 1
   else mret tt);;
  webbrowser_open ("http://localhost:" +:+ str PORT);;
  TCPServer "" PORT;;
  finally
    (try_except_KeyboardInterrupt
       (serve_forever events)
       (print (nl +:+ "👋 Shutting down...")))
    server_close.

(** *** The script seen from outside *)

(** A world with nothing in it but a file system and a working
    directory, to run the handler in. *)
Definition blank (fs : gmap fs_path node) (cwd : fs_path) : world :=
  World fs cwd [] false [] None [].

(** What handling [self] adds to the trace, and how the handler ends,
    when the file system is [fs] and the working directory [cwd]. *)
Definition reply (fs : gmap fs_path node) (cwd : fs_path) (self : request)
  : list effect :=
  w_trace (do_GET self (blank fs cwd)).2.

Definition outcome (fs : gmap fs_path node) (cwd : fs_path) (self : request)
  : res unit :=
  (do_GET self (blank fs cwd)).1.

(** The trace of a run of requests, all handled under [fs] and [cwd]. *)
Definition served (fs : gmap fs_path node) (cwd : fs_path) (rs : list request)
  : list effect :=
  flat_map (reply fs cwd) rs.

End Script.

(** The lines of the banner, of the guidance, and the farewell. *)
Definition banner : list effect :=
  [ Stdout "📚 GitCells Documentation Viewer";
    Stdout "🌐 Starting server at http://localhost:8080";
    Stdout ("Press Ctrl+C to stop" +:+ nl) ].

Definition guidance : list effect :=
  [ Stdout "⚠️  Documentation not built yet!";
    Stdout "Run one of these commands first:";
    Stdout "  - node docs/build.js";
    Stdout "  - ./scripts/build-docs.sh" ].

Definition farewell : effect := Stdout (nl +:+ "👋 Shutting down...").

(** The effects of a start that gets as far as listening: from the
    directory [d] of the script, with the documentation found at [hp],
    [launched] telling whether the browser came up. *)
Definition startup (d : fs_path) (hp : string) (launched : bool) : list effect :=
  Chdir d :: banner
  ++ [ Stat hp true; OpenBrowser "http://localhost:8080" launched; Bind "" 8080 ].

(** Is this effect the taking of a port? *)
Definition is_bind (e : effect) : bool :=
  match e with Bind _ _ => true | _ => false end.

(** The lines printed, in order. *)
Definition stdout_of (es : list effect) : list string :=
  omap (fun e => match e with Stdout l => Some l | _ => None end) es.

(** The part of the world a request could change if handling it had a
    lasting effect: everything but the record of what happened. *)
Definition server_state (w : world)
  : gmap fs_path node * fs_path * list string * bool * list Z * option (string * Z) :=
  (w_fs w, w_cwd w, w_argv w, w_browser w, w_busy w, w_listen w).

(** Where the built documentation is looked for. *)
Definition html_path (__file__ : string) : string :=
  Path.join (Path.dirname __file__) "../dist/gitcells-docs.html".

(** The test [do_GET] applies to [self.path]. *)
Definition is_doc_path (p : string) : bool :=
  String.eqb p "/" || String.eqb p "/index.html".

(** A computation that cannot tell one command line from another. *)
Definition argv_blind {A} (c : M A) : Prop :=
  forall a w, c (set_argv a w) = ((c w).1, set_argv a (c w).2).

(** ** A sample installation, for running the model *)

Module Sample.

Definition script : string := "/srv/gitcells/docs/view.py".

Definition docs_dir : fs_path := ["srv"; "gitcells"; "docs"].

Definition artifact : list Byte.byte :=
  list_byte_of_string "<html>GitCells</html>".

Definition build_js : list Byte.byte := list_byte_of_string "// build".

(** The checkout before the documentation is built. *)
Definition unbuilt : gmap fs_path node :=
  list_to_map
    [ ([], Dir);
      (["srv"], Dir);
      (["home"], Dir);
      (["srv"; "gitcells"], Dir);
      (["srv"; "gitcells"; "dist"], Dir);
      (docs_dir, Dir);
      (docs_dir ++ ["view.py"], File []);
      (docs_dir ++ ["build.js"], File build_js) ].

(** The checkout after the build step has run. *)
Definition built : gmap fs_path node :=
  <[ ["srv"; "gitcells"; "dist"; "gitcells-docs.html"] := File artifact ]> unbuilt.

Definition boot (fs : gmap fs_path node) (browser : bool) : world :=
  World fs ["home"] [] browser [] None [].

(** A small static responder: the file named by the path under the
    root, or 404; a directory is answered with an empty listing. *)
Definition names (p : string) : list string :=
  filter (fun c => c <> "") (Path.components p).

Definition responder : StaticResponder := {|
  translate_path root p := root ++ names p;
  respond fs root r :=
    match fs !! (root ++ names (path r)) with
    | Some (File bs) =>
        ([SendResponse 200; SendHeader "Content-type" "application/octet-stream";
          EndHeaders; WfileWrite bs], None)
    | Some Dir =>
        ([SendResponse 200; SendHeader "Content-type" "text/html"; EndHeaders], None)
    | None =>
        ([SendResponse 404; SendHeader "Content-type" "text/html"; EndHeaders], None)
    end
|}.

Definition get (p : string) : request := Request p [].

(** The world of the process once it serves from the checkout. *)
Definition serving (fs : gmap fs_path node) : world :=
  World fs docs_dir [] true [] (Some ("", 8080)) [].

End Sample.

(** * Properties *)

(** ** Paths *)

Example dirname_abs : Path.dirname "/srv/gitcells/docs/view.py" = "/srv/gitcells/docs".
Proof. reflexivity. Qed.

Example dirname_rel : Path.dirname "docs/view.py" = "docs".
Proof. reflexivity. Qed.

Example dirname_bare : Path.dirname "view.py" = "".
Proof. reflexivity. Qed.

Example dirname_root : Path.dirname "/view.py" = "/".
Proof. reflexivity. Qed.

Example join_abs :
  Path.join "/srv/gitcells/docs" "../dist/gitcells-docs.html"
  = "/srv/gitcells/docs/../dist/gitcells-docs.html".
Proof. reflexivity. Qed.

Example join_empty : Path.join "" "../dist/gitcells-docs.html" = "../dist/gitcells-docs.html".
Proof. reflexivity. Qed.

Example components_abs : Path.components "/a//b" = [""; "a"; ""; "b"].
Proof. reflexivity. Qed.

(** ** The model at work *)

(** A start without the built documentation: banner, guidance, status 1. *)
Example run_unbuilt :
  let run := main (R := Sample.responder) Sample.script [Get (Sample.get "/")]
               (Sample.boot Sample.unbuilt true) in
  exit_status run.1 = Some 1
  /\ w_trace run.2
     = Chdir Sample.docs_dir :: banner
       ++ Stat "/srv/gitcells/docs/../dist/gitcells-docs.html" false :: guidance.
Proof. vm_compute. by split. Qed.

(** A start with it, three requests and an interrupt: what goes over
    the connection, what is printed, and the status. *)
Example run_built :
  let run := main (R := Sample.responder) Sample.script
               [Get (Sample.get "/"); Get (Sample.get "/build.js");
                Get (Sample.get "/nowhere"); Interrupt; Get (Sample.get "/")]
               (Sample.boot Sample.built false) in
  exit_status run.1 = Some 0
  /\ w_cwd run.2 = Sample.docs_dir
  /\ w_listen run.2 = None
  /\ stdout_of (w_trace run.2) = stdout_of (banner ++ [farewell])
  /\ wire_of (w_trace run.2)
     = [ SendResponse 200; SendHeader "Content-type" "text/html"; EndHeaders;
         WfileWrite Sample.artifact;
         SendResponse 200; SendHeader "Content-type" "application/octet-stream";
         EndHeaders; WfileWrite Sample.build_js;
         SendResponse 404; SendHeader "Content-type" "text/html"; EndHeaders ].
Proof. vm_compute. repeat split. Qed.

(** A script path without a directory part gives [os.chdir] the empty
    string, which no directory answers to. *)
Example run_bare_script_name :
  (main (R := Sample.responder) "view.py" [] (Sample.serving Sample.built)).1
  = Raise (OSError ENOENT).
Proof. vm_compute. reflexivity. Qed.

(** The request target on its way to [self.path]: only a leading run
    of slashes is touched. *)
Example parse_request_path_samples :
  parse_request_path "//" = "/"
  /\ parse_request_path "///index.html" = "/index.html"
  /\ parse_request_path "/a//b" = "/a//b"
  /\ parse_request_path "/index.html?x=1" = "/index.html?x=1"
  /\ parse_request_path "/" = "/".
Proof. by repeat split. Qed.

(** The documentation path being a directory: the headers are out
    before the read fails. *)
Example get_directory_artifact :
  let fs := <[ ["srv"; "gitcells"; "dist"; "gitcells-docs.html"] := Dir ]> Sample.unbuilt in
  (do_GET (R := Sample.responder) Sample.script (Sample.get "/") (Sample.serving fs)).1
  = Raise (OSError EISDIR).
Proof. vm_compute. reflexivity. Qed.

(** ** Book-keeping on worlds *)

Lemma log_log es1 es2 w : log es2 (log es1 w) = log (es1 ++ es2) w.
Proof. unfold log; cbn. by rewrite app_assoc. Qed.

Lemma log_nil w : log [] w = w.
Proof. destruct w; unfold log; cbn. by rewrite app_nil_r. Qed.

Lemma server_state_log es w : server_state (log es w) = server_state w.
Proof. reflexivity. Qed.

Lemma fs_log es w : w_fs (log es w) = w_fs w.
Proof. reflexivity. Qed.

Lemma cwd_log es w : w_cwd (log es w) = w_cwd w.
Proof. reflexivity. Qed.

Lemma busy_log es w : w_busy (log es w) = w_busy w.
Proof. reflexivity. Qed.

Lemma browser_log es w : w_browser (log es w) = w_browser w.
Proof. reflexivity. Qed.

Lemma listen_log es w : w_listen (log es w) = w_listen w.
Proof. reflexivity. Qed.

Lemma trace_log es w : w_trace (log es w) = w_trace w ++ es.
Proof. reflexivity. Qed.

Lemma fs_set_cwd d w : w_fs (set_cwd d w) = w_fs w.
Proof. reflexivity. Qed.

Lemma cwd_set_cwd d w : w_cwd (set_cwd d w) = d.
Proof. reflexivity. Qed.

Lemma busy_set_cwd d w : w_busy (set_cwd d w) = w_busy w.
Proof. reflexivity. Qed.

Lemma browser_set_cwd d w : w_browser (set_cwd d w) = w_browser w.
Proof. reflexivity. Qed.

Lemma trace_set_cwd d w : w_trace (set_cwd d w) = w_trace w.
Proof. reflexivity. Qed.

Lemma fs_set_listen l w : w_fs (set_listen l w) = w_fs w.
Proof. reflexivity. Qed.

Lemma cwd_set_listen l w : w_cwd (set_listen l w) = w_cwd w.
Proof. reflexivity. Qed.

Lemma listen_set_listen l w : w_listen (set_listen l w) = l.
Proof. reflexivity. Qed.

Lemma trace_set_listen l w : w_trace (set_listen l w) = w_trace w.
Proof. reflexivity. Qed.

Lemma set_listen_log l es w : set_listen l (log es w) = log es (set_listen l w).
Proof. reflexivity. Qed.

Lemma set_listen_twice l1 l2 w : set_listen l2 (set_listen l1 w) = set_listen l2 w.
Proof. reflexivity. Qed.

(** Rewriting a world to the form [log es w0], with the fields read
    off [w0]. *)
Ltac world :=
  rewrite ?set_listen_log, ?log_log, ?fs_log, ?cwd_log, ?busy_log, ?browser_log,
    ?listen_log, ?fs_set_listen, ?cwd_set_listen, ?listen_set_listen,
    ?fs_set_cwd, ?cwd_set_cwd, ?busy_set_cwd, ?browser_set_cwd.

Lemma wire_of_app es1 es2 : wire_of (es1 ++ es2) = wire_of es1 ++ wire_of es2.
Proof. apply omap_app. Qed.

Lemma wire_of_Wire ws : wire_of (map Wire ws) = ws.
Proof. unfold wire_of. induction ws as [|x ws IH]; cbn; [done | by f_equal]. Qed.

Lemma stdout_of_app es1 es2 : stdout_of (es1 ++ es2) = stdout_of es1 ++ stdout_of es2.
Proof. apply omap_app. Qed.

Lemma stdout_of_Wire ws : stdout_of (map Wire ws) = [].
Proof. unfold stdout_of. induction ws as [|x ws IH]; cbn; done. Qed.

(** ** The handler *)

Section Handler.

Context (__file__ : string) {R : StaticResponder}.

Implicit Types (w : world) (self : request).

(** The test on [self.path] is equality with one of two literals. *)
Lemma doc_path_test p :
  String.eqb p "/" || String.eqb p "/index.html" = is_doc_path p.
Proof. reflexivity. Qed.

Lemma is_doc_path_true p : is_doc_path p = true <-> p = "/" \/ p = "/index.html".
Proof.
  unfold is_doc_path. rewrite orb_true_iff, !String.eqb_eq. tauto.
Qed.

Lemma is_doc_path_false p : is_doc_path p = false <-> p <> "/" /\ p <> "/index.html".
Proof.
  unfold is_doc_path. rewrite orb_false_iff, !String.eqb_neq. tauto.
Qed.

(** The three ways through [do_GET]. *)
Lemma do_GET_other self w :
  is_doc_path (path self) = false ->
  do_GET __file__ self w = super_do_GET self w.
Proof. intros H. unfold do_GET. by rewrite doc_path_test, H. Qed.

Lemma do_GET_absent self w e :
  is_doc_path (path self) = true ->
  stat (w_fs w) (w_cwd w) (html_path __file__) = inl e ->
  do_GET __file__ self w
  = super_do_GET self (log [Stat (html_path __file__) false] w).
Proof.
  intros Hp Hs. unfold do_GET. rewrite doc_path_test, Hp.
  fold (html_path __file__).
  unfold mbind, M_bind, bind, os_path_exists. by rewrite Hs.
Qed.

Lemma do_GET_file self w bs :
  is_doc_path (path self) = true ->
  stat (w_fs w) (w_cwd w) (html_path __file__) = inr (File bs) ->
  do_GET __file__ self w
  = (Ok tt,
     log [Stat (html_path __file__) true;
          Wire (SendResponse 200);
          Wire (SendHeader "Content-type" "text/html");
          Wire EndHeaders;
          ReadFile (html_path __file__);
          Wire (WfileWrite bs)] w).
Proof.
  intros Hp Hs. unfold do_GET. rewrite doc_path_test, Hp.
  fold (html_path __file__).
  unfold mbind, M_bind, bind, os_path_exists. rewrite Hs.
  unfold send_response, send_header, end_headers, wfile_write, emit, read_binary.
  world. rewrite Hs. world. reflexivity.
Qed.

Lemma do_GET_directory self w :
  is_doc_path (path self) = true ->
  stat (w_fs w) (w_cwd w) (html_path __file__) = inr Dir ->
  do_GET __file__ self w
  = (Raise (OSError EISDIR),
     log [Stat (html_path __file__) true;
          Wire (SendResponse 200);
          Wire (SendHeader "Content-type" "text/html");
          Wire EndHeaders] w).
Proof.
  intros Hp Hs. unfold do_GET. rewrite doc_path_test, Hp.
  fold (html_path __file__).
  unfold mbind, M_bind, bind, os_path_exists. rewrite Hs.
  unfold send_response, send_header, end_headers, wfile_write, emit, read_binary.
  world. rewrite Hs. world. reflexivity.
Qed.

(** What the base class does never starts with a look at the file
    system: it only writes to the connection. *)
Lemma super_do_GET_no_stat self w out p b es :
  super_do_GET self w <> (out, log (Stat p b :: es) w).
Proof.
  intros Heq. apply (f_equal (fun rw => w_trace rw.2)) in Heq.
  unfold super_do_GET in Heq. cbn [snd] in Heq. rewrite !trace_log in Heq.
  apply app_inv_head in Heq.
  by destruct (respond (w_fs w) (w_cwd w) self).1.
Qed.

(** On the two documentation paths the handler does not just delegate:
    it looks for the file first. *)
Lemma do_GET_special self w :
  is_doc_path (path self) = true ->
  do_GET __file__ self w <> super_do_GET self w.
Proof.
  intros Hp Heq.
  destruct (stat (w_fs w) (w_cwd w) (html_path __file__)) as [e|[bs|]] eqn:Hs.
  - rewrite (do_GET_absent self w e Hp Hs) in Heq.
    apply (f_equal (fun rw => length (w_trace rw.2))) in Heq.
    unfold super_do_GET in Heq. cbn [snd] in Heq.
    rewrite !trace_log, !fs_log, !cwd_log, !length_app in Heq.
    cbn [length] in Heq. lia.
  - rewrite (do_GET_file self w bs Hp Hs) in Heq.
    symmetry in Heq. by apply super_do_GET_no_stat in Heq.
  - rewrite (do_GET_directory self w Hp Hs) in Heq.
    symmetry in Heq. by apply super_do_GET_no_stat in Heq.
Qed.

End Handler.

Section Serving.

Context (__file__ : string) {R : StaticResponder}.

Implicit Types (w : world) (self : request).

Lemma super_do_GET_frame self w :
  super_do_GET self w
  = ((super_do_GET self (blank (w_fs w) (w_cwd w))).1,
     log (w_trace (super_do_GET self (blank (w_fs w) (w_cwd w))).2) w).
Proof. reflexivity. Qed.

(** Handling a request reads the file system and the working directory
    and appends to the trace; nothing else. *)
Lemma do_GET_frame self w :
  do_GET __file__ self w
  = (outcome __file__ (w_fs w) (w_cwd w) self,
     log (reply __file__ (w_fs w) (w_cwd w) self) w).
Proof.
  unfold outcome, reply.
  set (b := blank (w_fs w) (w_cwd w)).
  destruct (is_doc_path (path self)) eqn:Hp.
  - destruct (stat (w_fs w) (w_cwd w) (html_path __file__)) as [e|[bs|]] eqn:Hs.
    + rewrite (do_GET_absent __file__ self w e Hp Hs).
      rewrite (do_GET_absent __file__ self b e Hp Hs).
      unfold super_do_GET. world. reflexivity.
    + rewrite (do_GET_file __file__ self w bs Hp Hs).
      by rewrite (do_GET_file __file__ self b bs Hp Hs).
    + rewrite (do_GET_directory __file__ self w Hp Hs).
      by rewrite (do_GET_directory __file__ self b Hp Hs).
  - rewrite !do_GET_other by done. apply super_do_GET_frame.
Qed.

(** A handler ends normally or with an ordinary exception. *)
Lemma outcome_ordinary fs cwd self :
  outcome __file__ fs cwd self = Ok tt
  \/ exists e, outcome __file__ fs cwd self = Raise e /\ e <> KeyboardInterrupt.
Proof.
  unfold outcome. set (b := blank fs cwd).
  assert (Hsuper : forall w, (super_do_GET self w).1 = Ok tt
            \/ exists e, (super_do_GET self w).1 = Raise e /\ e <> KeyboardInterrupt).
  { intros w. unfold super_do_GET; cbn.
    destruct (respond (w_fs w) (w_cwd w) self).2; [right | left]; eauto. }
  destruct (is_doc_path (path self)) eqn:Hp.
  - destruct (stat (w_fs b) (w_cwd b) (html_path __file__)) as [e|[bs|]] eqn:Hs.
    + rewrite (do_GET_absent __file__ self b e Hp Hs). apply Hsuper.
    + rewrite (do_GET_file __file__ self b bs Hp Hs). by left.
    + rewrite (do_GET_directory __file__ self b Hp Hs). right; eauto.
  - rewrite do_GET_other by done. apply Hsuper.
Qed.

Lemma process_request_do_GET self w :
  process_request (do_GET __file__ self) w
  = (Ok tt, log (reply __file__ (w_fs w) (w_cwd w) self) w).
Proof.
  unfold process_request. rewrite do_GET_frame.
  destruct (outcome_ordinary (w_fs w) (w_cwd w) self) as [-> | (e & -> & He)];
    [done | by destruct e].
Qed.

(** The loop answers every request and stays in the loop. *)
Lemma serve_forever_requests rs w :
  serve_forever __file__ (map Get rs) w
  = (Pending, log (served __file__ (w_fs w) (w_cwd w) rs) w).
Proof.
  revert w. induction rs as [|r rs IH]; intros w; cbn [map serve_forever].
  - by rewrite log_nil.
  - unfold mbind, M_bind, bind. rewrite process_request_do_GET.
    rewrite IH. world. reflexivity.
Qed.

(** The interrupt ends the loop; what arrives after it is not looked at. *)
Lemma serve_forever_interrupt rs rest w :
  serve_forever __file__ (map Get rs ++ Interrupt :: rest) w
  = (Raise KeyboardInterrupt, log (served __file__ (w_fs w) (w_cwd w) rs) w).
Proof.
  revert w. induction rs as [|r rs IH]; intros w; cbn [map app serve_forever].
  - by rewrite log_nil.
  - unfold mbind, M_bind, bind. rewrite process_request_do_GET.
    rewrite IH. world. reflexivity.
Qed.

End Serving.

(** ** The [__main__] block *)

Section Main.

Context (__file__ : string) {R : StaticResponder}.

Implicit Types (w : world) (d : fs_path).

Lemma str_PORT : str PORT = "8080".
Proof. reflexivity. Qed.

(** The start of the script: the change of directory comes first, and
    whatever follows runs in the directory of the script. *)
Lemma main_chdir events w d :
  resolve (w_fs w) (w_cwd w) (Path.dirname __file__) = inr d ->
  w_fs w !! d = Some Dir ->
  exists rest : M unit,
    main __file__ events w = rest (log [Chdir d] (set_cwd d w)).
Proof.
  intros Hd Hdir. unfold main, mbind, M_bind, bind at 1.
  unfold os_chdir. rewrite Hd, Hdir. eauto.
Qed.

(** The start when the documentation is not there. *)
Lemma main_unbuilt events w d e :
  resolve (w_fs w) (w_cwd w) (Path.dirname __file__) = inr d ->
  w_fs w !! d = Some Dir ->
  stat (w_fs w) d (html_path __file__) = inl e ->
  main __file__ events w
  = (Exit 1,
     log (Chdir d :: banner ++ Stat (html_path __file__) false :: guidance)
         (set_cwd d w)).
Proof.
  intros Hd Hdir Hs. unfold main, mbind, M_bind, bind.
  unfold os_chdir. rewrite Hd, Hdir.
  unfold print, emit, os_path_exists. world.
  fold (html_path __file__). rewrite Hs. cbn [negb].
  unfold exit. world. reflexivity.
Qed.

(** The start when it is, up to the point where the loop is entered. *)
Lemma main_started events w d n :
  resolve (w_fs w) (w_cwd w) (Path.dirname __file__) = inr d ->
  w_fs w !! d = Some Dir ->
  stat (w_fs w) d (html_path __file__) = inr n ->
  existsb (Z.eqb PORT) (w_busy w) = false ->
  main __file__ events w
  = finally
      (try_except_KeyboardInterrupt (serve_forever __file__ events)
         (print (nl +:+ "👋 Shutting down...")))
      server_close
      (log (startup d (html_path __file__) (w_browser w))
           (set_listen (Some ("", PORT)) (set_cwd d w))).
Proof.
  intros Hd Hdir Hs Hport. unfold main, mbind, M_bind, bind.
  unfold os_chdir. rewrite Hd, Hdir.
  unfold print, emit, os_path_exists. world.
  fold (html_path __file__). rewrite Hs. cbn [negb].
  unfold mret, M_ret, ret, webbrowser_open, TCPServer.
  world. rewrite Hport. world. reflexivity.
Qed.

(** While only requests arrive, the process stays in the loop. *)
Lemma main_serving rs w d n :
  resolve (w_fs w) (w_cwd w) (Path.dirname __file__) = inr d ->
  w_fs w !! d = Some Dir ->
  stat (w_fs w) d (html_path __file__) = inr n ->
  existsb (Z.eqb PORT) (w_busy w) = false ->
  main __file__ (map Get rs) w
  = (Pending,
     log (startup d (html_path __file__) (w_browser w)
          ++ served __file__ (w_fs w) d rs)
         (set_listen (Some ("", PORT)) (set_cwd d w))).
Proof.
  intros Hd Hdir Hs Hport. rewrite (main_started _ w d n) by done.
  unfold finally, try_except_KeyboardInterrupt.
  rewrite serve_forever_requests. world. reflexivity.
Qed.

(** When the interrupt arrives, the process leaves the loop and ends. *)
Lemma main_interrupted rs rest w d n :
  resolve (w_fs w) (w_cwd w) (Path.dirname __file__) = inr d ->
  w_fs w !! d = Some Dir ->
  stat (w_fs w) d (html_path __file__) = inr n ->
  existsb (Z.eqb PORT) (w_busy w) = false ->
  main __file__ (map Get rs ++ Interrupt :: rest) w
  = (Ok tt,
     log (startup d (html_path __file__) (w_browser w)
          ++ served __file__ (w_fs w) d rs
          ++ [farewell; CloseSocket])
         (set_listen None (set_cwd d w))).
Proof.
  intros Hd Hdir Hs Hport. rewrite (main_started _ w d n) by done.
  unfold finally, try_except_KeyboardInterrupt.
  rewrite serve_forever_interrupt.
  unfold print, emit, server_close. world.
  rewrite set_listen_twice. reflexivity.
Qed.

End Main.

Section MainCases.

Context (__file__ : string) {R : StaticResponder}.

Implicit Types (w : world) (d : fs_path).

(** The start when the port is taken: the constructor raises, the
    script has no handler for that. *)
Lemma main_busy events w d n :
  resolve (w_fs w) (w_cwd w) (Path.dirname __file__) = inr d ->
  w_fs w !! d = Some Dir ->
  stat (w_fs w) d (html_path __file__) = inr n ->
  existsb (Z.eqb PORT) (w_busy w) = true ->
  main __file__ events w
  = (Raise (OSError EADDRINUSE),
     log (Chdir d :: banner
          ++ [Stat (html_path __file__) true;
              OpenBrowser "http://localhost:8080" (w_browser w)])
         (set_cwd d w)).
Proof.
  intros Hd Hdir Hs Hport. unfold main, mbind, M_bind, bind.
  unfold os_chdir. rewrite Hd, Hdir.
  unfold print, emit, os_path_exists. world.
  fold (html_path __file__). rewrite Hs. cbn [negb].
  unfold mret, M_ret, ret, webbrowser_open, TCPServer.
  world. rewrite Hport. world. reflexivity.
Qed.

(** The start when the directory of the script cannot be entered. *)
Lemma main_no_chdir events w :
  (forall d, resolve (w_fs w) (w_cwd w) (Path.dirname __file__) = inr d ->
             w_fs w !! d <> Some Dir) ->
  exists e, main __file__ events w = (Raise (OSError e), w).
Proof.
  intros Hno. unfold main, mbind, M_bind, bind at 1. unfold os_chdir.
  destruct (resolve _ _ _) as [e|d] eqn:Hd; [eauto |].
  specialize (Hno d eq_refl).
  destruct (w_fs w !! d) as [[bs|]|] eqn:Hn; [eauto | done | eauto].
Qed.

(** The script after its first statement. *)
Lemma bind_os_chdir {A} p (k : unit -> M A) w d :
  resolve (w_fs w) (w_cwd w) p = inr d ->
  w_fs w !! d = Some Dir ->
  (os_chdir p ≫= k) w = k tt (log [Chdir d] (set_cwd d w)).
Proof.
  intros Hd Hdir. unfold mbind, M_bind, bind, os_chdir. by rewrite Hd, Hdir.
Qed.

(** Only the fields the change of directory reads and writes tell two
    starts apart. *)
Lemma main_from_anywhere events w1 w2 d :
  set_cwd d w1 = set_cwd d w2 ->
  resolve (w_fs w1) (w_cwd w1) (Path.dirname __file__) = inr d ->
  resolve (w_fs w2) (w_cwd w2) (Path.dirname __file__) = inr d ->
  w_fs w1 !! d = Some Dir ->
  main __file__ events w1 = main __file__ events w2.
Proof.
  intros Heq H1 H2 Hdir.
  assert (Hfs : w_fs w1 = w_fs w2) by (by injection Heq).
  unfold main.
  rewrite (bind_os_chdir _ _ w1 d H1 Hdir).
  rewrite Hfs in Hdir.
  rewrite (bind_os_chdir _ _ w2 d H2 Hdir).
  by rewrite Heq.
Qed.

End MainCases.

(** Every sequence of events is a run of requests, or a run of requests
    up to the first interrupt. *)
Lemma events_shape (events : list incoming) :
  (exists rs, events = map Get rs)
  \/ (exists rs rest, events = map Get rs ++ Interrupt :: rest).
Proof.
  induction events as [|[r|] events IH].
  - left. by exists [].
  - destruct IH as [[rs ->] | (rs & rest & ->)].
    + left. by exists (r :: rs).
    + right. by exists (r :: rs), rest.
  - right. by exists [], events.
Qed.

(** ** Absolute paths *)

Lemma drop_while_snoc {A} (f : A -> bool) xs c :
  f c = false -> Path.drop_while f (xs ++ [c]) = Path.drop_while f xs ++ [c].
Proof.
  intros Hc. induction xs as [|x xs IH]; cbn; [by rewrite Hc |].
  by destruct (f x).
Qed.

Lemma drop_while_app_l {A} (f : A -> bool) xs ys :
  Path.drop_while f xs <> [] ->
  Path.drop_while f (xs ++ ys) = Path.drop_while f xs ++ ys.
Proof.
  induction xs as [|x xs IH]; cbn; [done |].
  by destruct (f x).
Qed.

Lemma drop_while_nil {A} (f : A -> bool) xs :
  Path.drop_while f xs = [] -> forallb f xs = true.
Proof.
  induction xs as [|x xs IH]; cbn; [done |].
  destruct (f x); [done | discriminate].
Qed.

Lemma forallb_rev {A} (f : A -> bool) xs : forallb f (rev xs) = forallb f xs.
Proof.
  induction xs as [|x xs IH]; cbn; [done |].
  rewrite forallb_app, IH; cbn. rewrite andb_true_r. apply andb_comm.
Qed.

(** The directory of an absolute path is an absolute path. *)
Lemma dirname_absolute p :
  Path.startswith_sep p = true -> Path.startswith_sep (Path.dirname p) = true.
Proof.
  destruct p as [|c p]; [done |]. cbn [Path.startswith_sep]. intros Hc.
  unfold Path.dirname, Path.head_upto_sep. cbn [list_ascii_of_string rev].
  rewrite drop_while_snoc by (by rewrite Hc).
  rewrite rev_app_distr. cbn [rev app].
  set (h := rev (Path.drop_while _ (rev (list_ascii_of_string p)))).
  destruct (forallb Path.is_sep (c :: h)) eqn:Hall; [done |].
  unfold Path.rstrip_sep. cbn [rev].
  cbn [forallb] in Hall. rewrite Hc in Hall. cbn in Hall.
  rewrite drop_while_app_l.
  - rewrite rev_app_distr. by cbn.
  - intros Hnil. apply drop_while_nil in Hnil.
    rewrite forallb_rev in Hnil. congruence.
Qed.

(** An absolute path resolves to the same place from everywhere. *)
Lemma resolve_absolute fs c1 c2 p :
  Path.startswith_sep p = true -> resolve fs c1 p = resolve fs c2 p.
Proof. intros Hp. unfold resolve. by rewrite Hp. Qed.

(** ** What the specification states about the handler *)

Section HandlerClaims.

Context (__file__ : string) {R : StaticResponder}.

Implicit Types (w : world) (self : request).

(** C1. A GET whose path is exactly ["/"] or ["/index.html"], made
    while the documentation file exists, is answered with status 200, a
    [Content-type] header of [text/html], and a body that is the
    content of the file, byte for byte; the handler ends normally.
    What goes over the connection is exactly, and in this order: the
    status 200, the one header, the end of the headers, and the bytes
    of the file in one write. *)
Theorem doc_paths_serve_artifact w self bs :
  path self = "/" \/ path self = "/index.html" ->
  stat (w_fs w) (w_cwd w) (html_path __file__) = inr (File bs) ->
  do_GET __file__ self w
  = (Ok tt,
     log [Stat (html_path __file__) true;
          Wire (SendResponse 200);
          Wire (SendHeader "Content-type" "text/html");
          Wire EndHeaders;
          ReadFile (html_path __file__);
          Wire (WfileWrite bs)] w)
  /\ wire_of (w_trace (do_GET __file__ self w).2)
     = wire_of (w_trace w)
       ++ [SendResponse 200; SendHeader "Content-type" "text/html";
           EndHeaders; WfileWrite bs]
  /\ exists sent,
       do_GET __file__ self w = (Ok tt, log sent w)
       /\ wire_of sent
          = [SendResponse 200; SendHeader "Content-type" "text/html";
             EndHeaders; WfileWrite bs]
       /\ status_of (wire_of sent) = Some 200
       /\ headers_of (wire_of sent) = [("Content-type", "text/html")]
       /\ body_of (wire_of sent) = bs.
Proof.
  intros Hp Hs. apply is_doc_path_true in Hp.
  rewrite (do_GET_file __file__ self w bs Hp Hs).
  split; [reflexivity |]. split.
  - cbn [snd]. by rewrite trace_log, wire_of_app.
  - eexists. split; [reflexivity |]. split; [reflexivity |].
    cbn. by rewrite app_nil_r.
Qed.

(** C3. A GET whose path is neither ["/"] nor ["/index.html"] is handed
    to the static responder as it came, in the same world; so a file
    that exists under the working directory comes back with status 200
    and its bytes, and a path that names nothing comes back as the
    responder's 404. *)
Theorem other_paths_delegated {S : StandardResponder R} w self :
  path self <> "/" ->
  path self <> "/index.html" ->
  do_GET __file__ self w = super_do_GET self w
  /\ (exists sent out,
        do_GET __file__ self w = (out, log (map Wire sent) w)
        /\ sent = (respond (w_fs w) (w_cwd w) self).1
        /\ w_cwd w `prefix_of` translate_path (w_cwd w) (path self)
        /\ (forall bs,
              w_fs w !! translate_path (w_cwd w) (path self) = Some (File bs) ->
              status_of sent = Some 200 /\ body_of sent = bs)
        /\ (w_fs w !! translate_path (w_cwd w) (path self) = None ->
            status_of sent = Some 404)).
Proof.
  intros H1 H2.
  assert (Hp : is_doc_path (path self) = false) by (by apply is_doc_path_false).
  split; [by apply do_GET_other |].
  rewrite do_GET_other by done.
  eexists _, _. split; [reflexivity |]. split; [reflexivity |].
  split; [apply translate_under_root |].
  split; [intros bs Hbs; by apply respond_file | apply respond_missing].
Qed.

(** C5. Serving is idempotent and deterministic: for a fixed content of
    the documentation file, a GET of ["/"] gets the same answer in every
    world and every time it is repeated, and handling a request, this
    one or any other, leaves the state of the server as it was. *)
Theorem root_get_idempotent w self bs :
  path self = "/" ->
  stat (w_fs w) (w_cwd w) (html_path __file__) = inr (File bs) ->
  exists sent,
    do_GET __file__ self w = (Ok tt, log sent w)
    /\ do_GET __file__ self (log sent w) = (Ok tt, log sent (log sent w))
    /\ (forall w',
          stat (w_fs w') (w_cwd w') (html_path __file__) = inr (File bs) ->
          do_GET __file__ self w' = (Ok tt, log sent w'))
    /\ (forall r w', server_state (do_GET __file__ r w').2 = server_state w').
Proof.
  intros Hp Hs.
  assert (Hd : is_doc_path (path self) = true) by (apply is_doc_path_true; auto).
  eexists. split; [by apply do_GET_file |].
  split; [by apply do_GET_file |].
  split; [intros w' Hs'; by apply do_GET_file |].
  intros r w'. by rewrite do_GET_frame.
Qed.

(** C8. When the documentation file is not there at the time of the
    request, a GET of ["/"] or ["/index.html"] is not an error of its
    own and nothing is printed about the missing file: after the failed
    look-up the request goes to the static responder, whose answer and
    whose way of ending are the handler's. *)
Theorem absent_artifact_falls_through w self e :
  path self = "/" \/ path self = "/index.html" ->
  stat (w_fs w) (w_cwd w) (html_path __file__) = inl e ->
  do_GET __file__ self w
  = super_do_GET self (log [Stat (html_path __file__) false] w)
  /\ (do_GET __file__ self w).1 = (super_do_GET self w).1
  /\ (exists sent,
        w_trace (do_GET __file__ self w).2
        = w_trace w ++ Stat (html_path __file__) false :: sent
        /\ wire_of sent = (respond (w_fs w) (w_cwd w) self).1
        /\ stdout_of sent = []).
Proof.
  intros Hp Hs. apply is_doc_path_true in Hp.
  rewrite (do_GET_absent __file__ self w e Hp Hs).
  split; [done |]. split; [done |].
  exists (map Wire (respond (w_fs w) (w_cwd w) self).1).
  split; [| split; [apply wire_of_Wire | apply stdout_of_Wire]].
  unfold super_do_GET; cbn. by rewrite <- app_assoc.
Qed.

(** C9. The routing test is equality of [self.path] with one of two
    literal strings.  On ["/"] and ["/index.html"], and on them only,
    the handler does something other than delegate: it looks for the
    documentation file and, when it is there, serves it.  Every other
    [self.path] goes to the static responder as it came: so do the
    request targets ["/?q=1"], ["/index.html?x=1"] and ["/INDEX.HTML"],
    which reach the handler unchanged.  A target that starts with two
    slashes does not: the library cuts the run of slashes down to one,
    so a GET of ["//"] reaches the handler as ["/"] and gets the
    documentation. *)
Theorem exact_path_match w self :
  (do_GET __file__ self w <> super_do_GET self w
   <-> path self = "/" \/ path self = "/index.html")
  /\ (path self = "/" \/ path self = "/index.html" ->
      forall bs,
        stat (w_fs w) (w_cwd w) (html_path __file__) = inr (File bs) ->
        do_GET __file__ self w
        = (Ok tt,
           log [Stat (html_path __file__) true;
                Wire (SendResponse 200);
                Wire (SendHeader "Content-type" "text/html");
                Wire EndHeaders;
                ReadFile (html_path __file__);
                Wire (WfileWrite bs)] w))
  /\ (In (path self) ["/?q=1"; "/index.html?x=1"; "//"; "/INDEX.HTML"] ->
      do_GET __file__ self w = super_do_GET self w)
  /\ (forall target hdrs,
        In target ["/?q=1"; "/index.html?x=1"; "/INDEX.HTML"] ->
        handle_one_request __file__ target hdrs w
        = super_do_GET (Request target hdrs) w)
  /\ (forall hdrs,
        handle_one_request __file__ "//" hdrs w
        = do_GET __file__ (Request "/" hdrs) w
        /\ handle_one_request __file__ "//" hdrs w
           <> super_do_GET (Request "/" hdrs) w
        /\ forall bs,
             stat (w_fs w) (w_cwd w) (html_path __file__) = inr (File bs) ->
             wire_of (w_trace (handle_one_request __file__ "//" hdrs w).2)
             = wire_of (w_trace w)
               ++ [SendResponse 200; SendHeader "Content-type" "text/html";
                   EndHeaders; WfileWrite bs]).
Proof.
  split; [split |].
  - intros Hne. apply is_doc_path_true.
    destruct (is_doc_path (path self)) eqn:Hp; [done |].
    by rewrite do_GET_other in Hne.
  - intros Hp. apply is_doc_path_true in Hp. by apply do_GET_special.
  - split; [| split; [| split]].
    + intros Hp bs Hs. apply is_doc_path_true in Hp. by apply do_GET_file.
    + intros Hin. apply do_GET_other.
      cbn in Hin. by destruct Hin as [<- | [<- | [<- | [<- | []]]]].
    + intros target hdrs Hin. unfold handle_one_request.
      cbn in Hin. destruct Hin as [<- | [<- | [<- | []]]];
        by apply do_GET_other.
    + intros hdrs. unfold handle_one_request.
      change (parse_request_path "//") with "/".
      split; [reflexivity |]. split; [by apply do_GET_special |].
      intros bs Hs.
      rewrite (do_GET_file __file__ (Request "/" hdrs) w bs eq_refl Hs).
      cbn [snd]. by rewrite trace_log, wire_of_app.
Qed.

End HandlerClaims.


(** ** The command line is never read *)

Section Blind.

Context (__file__ : string) {R : StaticResponder}.

Lemma blind_ret {A} (a : A) : argv_blind (mret a).
Proof. by intros ??. Qed.

Lemma blind_bind {A B} (c : M A) (k : A -> M B) :
  argv_blind c -> (forall x, argv_blind (k x)) -> argv_blind (c ≫= k).
Proof.
  intros Hc Hk a w. unfold mbind, M_bind, bind. rewrite Hc.
  destruct (c w) as [[x|e|n|] w']; cbn; [apply Hk | done..].
Qed.

Lemma blind_emit e : argv_blind (emit e).
Proof. by intros ??. Qed.

Lemma blind_print line : argv_blind (print line).
Proof. apply blind_emit. Qed.

Lemma blind_exit {A} n : argv_blind (@exit A n).
Proof. by intros ??. Qed.

Lemma blind_raise {A} e : argv_blind (@raise A e).
Proof. by intros ??. Qed.

Lemma blind_os_chdir p : argv_blind (os_chdir p).
Proof.
  intros a w. unfold os_chdir; cbn.
  destruct (resolve _ _ _) as [e|d]; [done |].
  by destruct (w_fs w !! d) as [[bs|]|].
Qed.

Lemma blind_os_path_exists p : argv_blind (os_path_exists p).
Proof. by intros ??. Qed.

Lemma blind_read_binary p : argv_blind (read_binary p).
Proof.
  intros a w. unfold read_binary; cbn.
  by destruct (stat _ _ _) as [e|[bs|]].
Qed.

Lemma blind_webbrowser_open url : argv_blind (webbrowser_open url).
Proof. by intros ??. Qed.

Lemma blind_TCPServer host port : argv_blind (TCPServer host port).
Proof. intros a w. unfold TCPServer; cbn. by destruct (existsb _ _). Qed.

Lemma blind_server_close : argv_blind server_close.
Proof. by intros ??. Qed.

Lemma blind_try c h :
  argv_blind c -> argv_blind h -> argv_blind (try_except_KeyboardInterrupt c h).
Proof.
  intros Hc Hh a w. unfold try_except_KeyboardInterrupt. rewrite Hc.
  destruct (c w) as [[x|[e| |s]|n|] w']; cbn; first [done | apply Hh].
Qed.

Lemma blind_finally c k :
  argv_blind c -> argv_blind k -> argv_blind (finally c k).
Proof.
  intros Hc Hk a w. unfold finally. rewrite Hc.
  destruct (c w) as [[x|e|n|] w']; cbn; try done;
    rewrite Hk; by destruct (k w') as [[y|e'|n'|] w''].
Qed.

Lemma blind_super_do_GET self : argv_blind (super_do_GET self).
Proof. by intros ??. Qed.

Create HintDb blind.

#[local] Hint Resolve blind_ret blind_emit blind_print blind_exit blind_raise
  blind_os_chdir blind_os_path_exists blind_read_binary blind_webbrowser_open
  blind_TCPServer blind_server_close blind_super_do_GET : blind.

Ltac blind :=
  repeat first
    [ apply blind_bind; [| intros ?]
    | apply blind_try
    | apply blind_finally
    | solve [unfold send_response, send_header, end_headers, wfile_write;
             auto with blind] ].

Lemma blind_do_GET self : argv_blind (do_GET __file__ self).
Proof.
  unfold do_GET. destruct (_ || _); [| blind].
  apply blind_bind; [blind |]. intros [|]; blind.
Qed.

Lemma blind_process_request h : argv_blind h -> argv_blind (process_request h).
Proof.
  intros Hh a w. unfold process_request. rewrite Hh.
  by destruct (h w) as [[x|[e| |s]|n|] w'].
Qed.

Lemma blind_serve_forever events : argv_blind (serve_forever __file__ events).
Proof.
  induction events as [|[r|] events IH]; cbn [serve_forever].
  - by intros ??.
  - apply blind_bind; [| done].
    apply blind_process_request, blind_do_GET.
  - blind.
Qed.

Lemma blind_main events : argv_blind (main __file__ events).
Proof.
  unfold main.
  apply blind_bind; [blind |]. intros _.
  do 3 (apply blind_bind; [blind |]; intros _).
  apply blind_bind; [blind |]. intros found.
  apply blind_bind; [destruct found; cbn [negb]; blind |]. intros _.
  do 2 (apply blind_bind; [blind |]; intros _).
  apply blind_finally; [| blind].
  apply blind_try; [apply blind_serve_forever | blind].
Qed.

(** A reply holds nothing printed, and takes no port. *)
Lemma reply_quiet fs cwd self :
  stdout_of (reply __file__ fs cwd self) = []
  /\ forallb (fun e => negb (is_bind e)) (reply __file__ fs cwd self) = true.
Proof.
  unfold reply. set (b := blank fs cwd).
  assert (Hsuper : forall w, w_trace w = [] ->
            stdout_of (w_trace (super_do_GET self w).2) = []
            /\ forallb (fun e => negb (is_bind e))
                 (w_trace (super_do_GET self w).2) = true).
  { intros w Hw. unfold super_do_GET; cbn. rewrite Hw; cbn.
    split; [apply stdout_of_Wire |].
    induction (respond _ _ _).1; by cbn. }
  destruct (is_doc_path (path self)) eqn:Hp.
  - destruct (stat (w_fs b) (w_cwd b) (html_path __file__)) as [e|[bs|]] eqn:Hs.
    + rewrite (do_GET_absent __file__ self b e Hp Hs).
      unfold super_do_GET; cbn. split; [apply stdout_of_Wire |].
      induction (respond _ _ _).1; by cbn.
    + by rewrite (do_GET_file __file__ self b bs Hp Hs).
    + by rewrite (do_GET_directory __file__ self b Hp Hs).
  - rewrite do_GET_other by done. by apply Hsuper.
Qed.

Lemma served_quiet fs cwd rs :
  stdout_of (served __file__ fs cwd rs) = []
  /\ forallb (fun e => negb (is_bind e)) (served __file__ fs cwd rs) = true.
Proof.
  induction rs as [|r rs [IH1 IH2]]; [done |].
  unfold served in *. cbn [flat_map].
  destruct (reply_quiet fs cwd r) as [H1 H2].
  by rewrite stdout_of_app, forallb_app, H1, H2, IH1, IH2.
Qed.

End Blind.

(** ** What the specification states about the process *)

Section ProcessClaims.

Context (__file__ : string) {R : StaticResponder}.

Implicit Types (w : world) (d : fs_path).

(** C2. If the documentation file does not exist when the process
    starts, the process prints the guidance that names the build step,
    ends with status 1, and never takes the port: no server is made. *)
Theorem missing_artifact_exits events w d e :
  resolve (w_fs w) (w_cwd w) (Path.dirname __file__) = inr d ->
  w_fs w !! d = Some Dir ->
  stat (w_fs w) d (html_path __file__) = inl e ->
  exists did,
    main __file__ events w = (Exit 1, log did (set_cwd d w))
    /\ exit_status (main __file__ events w).1 = Some 1
    /\ stdout_of did = stdout_of (banner ++ guidance)
    /\ In "  - node docs/build.js" (stdout_of did)
    /\ In "  - ./scripts/build-docs.sh" (stdout_of did)
    /\ forallb (fun x => negb (is_bind x)) did = true
    /\ w_listen (main __file__ events w).2 = w_listen w.
Proof.
  intros Hd Hdir Hs. rewrite (main_unbuilt __file__ events w d e Hd Hdir Hs).
  eexists. split; [reflexivity |]. cbn. tauto.
Qed.

(** C4. An interrupt that arrives while the server is in its loop ends
    the loop: the requests before it have been answered, nothing after
    it is, the shutdown notice is printed, the socket is closed, and
    the process ends with status 0. *)
Theorem interrupt_shuts_down rs rest w d n :
  resolve (w_fs w) (w_cwd w) (Path.dirname __file__) = inr d ->
  w_fs w !! d = Some Dir ->
  stat (w_fs w) d (html_path __file__) = inr n ->
  existsb (Z.eqb PORT) (w_busy w) = false ->
  let serving := main __file__ (map Get rs) w in
  let stopped := main __file__ (map Get rs ++ Interrupt :: rest) w in
  serving.1 = Pending
  /\ w_listen serving.2 = Some ("", PORT)
  /\ stopped.1 = Ok tt
  /\ exit_status stopped.1 = Some 0
  /\ w_listen stopped.2 = None
  /\ w_trace stopped.2
     = w_trace serving.2 ++ [Stdout (nl +:+ "👋 Shutting down..."); CloseSocket].
Proof.
  intros Hd Hdir Hs Hport serving stopped. subst serving stopped.
  rewrite (main_serving __file__ rs w d n Hd Hdir Hs Hport).
  rewrite (main_interrupted __file__ rs rest w d n Hd Hdir Hs Hport).
  cbn [fst snd exit_status]. world.
  rewrite !trace_log, !trace_set_listen, !trace_set_cwd.
  repeat split. rewrite <- !app_assoc. reflexivity.
Qed.

(** C6. The server takes the fixed port 8080 on all interfaces (the
    empty host), whatever the command line holds, and then serves for
    as long as requests keep coming: it is still listening after any
    number of them. *)
Theorem fixed_port_serves_until_interrupted rs w d n :
  resolve (w_fs w) (w_cwd w) (Path.dirname __file__) = inr d ->
  w_fs w !! d = Some Dir ->
  stat (w_fs w) d (html_path __file__) = inr n ->
  existsb (Z.eqb PORT) (w_busy w) = false ->
  PORT = 8080
  /\ (main __file__ (map Get rs) w).1 = Pending
  /\ w_listen (main __file__ (map Get rs) w).2 = Some ("", 8080)
  /\ (exists before,
        w_trace (main __file__ (map Get rs) w).2
        = w_trace w ++ before ++ Bind "" 8080 :: served __file__ (w_fs w) d rs
        /\ forallb (fun x => negb (is_bind x)) before = true
        /\ forallb (fun x => negb (is_bind x)) (served __file__ (w_fs w) d rs) = true)
  /\ (forall argv events,
        main __file__ events (set_argv argv w)
        = ((main __file__ events w).1, set_argv argv (main __file__ events w).2)).
Proof.
  intros Hd Hdir Hs Hport.
  rewrite (main_serving __file__ rs w d n Hd Hdir Hs Hport).
  split; [done |]. split; [done |]. split; [done |].
  split; [| intros argv events; apply blind_main].
  exists (Chdir d :: banner
          ++ [Stat (html_path __file__) true;
              OpenBrowser "http://localhost:8080" (w_browser w)]).
  split; [| split; [done | apply served_quiet]].
  cbn [snd]. rewrite trace_log, trace_set_listen, trace_set_cwd.
  reflexivity.
Qed.

(** C7. When the documentation file exists at the start, the browser
    is asked to open [http://localhost:8080] before the port is taken,
    and whether it came up or not changes nothing else: nothing more is
    printed, the port is taken, and the requests are served. *)
Theorem browser_failure_not_fatal rs w d n :
  resolve (w_fs w) (w_cwd w) (Path.dirname __file__) = inr d ->
  w_fs w !! d = Some Dir ->
  stat (w_fs w) d (html_path __file__) = inr n ->
  existsb (Z.eqb PORT) (w_busy w) = false ->
  forall launched,
    main __file__ (map Get rs) (set_browser launched w)
    = (Pending,
       log (startup d (html_path __file__) launched
            ++ served __file__ (w_fs w) d rs)
           (set_listen (Some ("", PORT)) (set_cwd d (set_browser launched w))))
    /\ (exists before,
          startup d (html_path __file__) launched
          = before ++ [OpenBrowser "http://localhost:8080" launched; Bind "" PORT]
          /\ forallb (fun x => negb (is_bind x)) before = true)
    /\ stdout_of (startup d (html_path __file__) launched
                  ++ served __file__ (w_fs w) d rs)
       = stdout_of banner.
Proof.
  intros Hd Hdir Hs Hport launched.
  split; [by apply (main_serving __file__ rs (set_browser launched w) d n) |].
  split.
  - exists (Chdir d :: banner ++ [Stat (html_path __file__) true]).
    split; [| done]. unfold startup; cbn. reflexivity.
  - rewrite stdout_of_app. destruct (served_quiet __file__ (w_fs w) d rs) as [-> _].
    by rewrite app_nil_r.
Qed.

(** C10. The first thing the process does is change its working
    directory to the directory of the script: the check for the
    documentation file and every answer to a request are made from
    there, and when the script is given by an absolute path the run is
    the same from whatever directory the process was started in. *)
Theorem chdir_to_script_directory events w d :
  resolve (w_fs w) (w_cwd w) (Path.dirname __file__) = inr d ->
  w_fs w !! d = Some Dir ->
  (exists tail,
     w_trace (main __file__ events w).2 = w_trace w ++ Chdir d :: tail)
  /\ w_cwd (main __file__ events w).2 = d
  /\ (forall n rs,
        stat (w_fs w) d (html_path __file__) = inr n ->
        existsb (Z.eqb PORT) (w_busy w) = false ->
        events = map Get rs ->
        w_trace (main __file__ events w).2
        = w_trace w ++ startup d (html_path __file__) (w_browser w)
                    ++ served __file__ (w_fs w) d rs)
  /\ (Path.startswith_sep __file__ = true ->
      forall c, main __file__ events (set_cwd c w) = main __file__ events w).
Proof.
  intros Hd Hdir.
  assert (Hfirst : exists out tail l,
            main __file__ events w
            = (out, log (Chdir d :: tail) (set_listen l (set_cwd d w)))).
  { destruct (stat (w_fs w) d (html_path __file__)) as [e|n] eqn:Hs.
    - rewrite (main_unbuilt __file__ events w d e Hd Hdir Hs).
      by eexists _, _, (w_listen w).
    - destruct (existsb (Z.eqb PORT) (w_busy w)) eqn:Hport.
      + rewrite (main_busy __file__ events w d n Hd Hdir Hs Hport).
        by eexists _, _, (w_listen w).
      + destruct (events_shape events) as [[rs ->] | (rs & rest & ->)].
        * rewrite (main_serving __file__ rs w d n Hd Hdir Hs Hport).
          by eexists _, _, _.
        * rewrite (main_interrupted __file__ rs rest w d n Hd Hdir Hs Hport).
          by eexists _, _, _. }
  destruct Hfirst as (out & tail & l & Hmain).
  split; [exists tail; by rewrite Hmain |].
  split; [by rewrite Hmain |].
  split.
  - intros n rs Hs Hport ->.
    by rewrite (main_serving __file__ rs w d n Hd Hdir Hs Hport).
  - intros Habs c. apply (main_from_anywhere __file__ events _ _ d); try done.
    rewrite <- Hd. apply resolve_absolute. by apply dirname_absolute.
Qed.

End ProcessClaims.

(** ** The claims at work on the sample installation *)

(** The sample responder has the default behaviours. *)
Lemma sample_responder_standard : StandardResponder Sample.responder.
Proof.
  split.
  - intros root p. by exists (Sample.names p).
  - intros fs root r bs Hbs. cbn in *. rewrite Hbs. cbn.
    split; [done | apply app_nil_r].
  - intros fs root r Hnone. cbn in *. by rewrite Hnone.
Qed.

Lemma doc_paths_serve_artifact_witness :
  let w := Sample.serving Sample.built in
  let self := Sample.get "/index.html" in
  (path self = "/" \/ path self = "/index.html")
  /\ stat (w_fs w) (w_cwd w) (html_path Sample.script) = inr (File Sample.artifact)
  /\ wire_of (w_trace (do_GET (R := Sample.responder) Sample.script self w).2)
     = wire_of (w_trace w)
       ++ [SendResponse 200; SendHeader "Content-type" "text/html";
           EndHeaders; WfileWrite Sample.artifact].
Proof.
  intros w self.
  assert (Hp : path self = "/" \/ path self = "/index.html")
    by (right; reflexivity).
  assert (Hs : stat (w_fs w) (w_cwd w) (html_path Sample.script)
               = inr (File Sample.artifact)) by (vm_compute; reflexivity).
  split; [exact Hp |]. split; [exact Hs |].
  exact (proj1 (proj2
           (doc_paths_serve_artifact Sample.script (R := Sample.responder)
              w self Sample.artifact Hp Hs))).
Defined.

Lemma missing_artifact_exits_witness :
  let w := Sample.boot Sample.unbuilt true in
  let events := [Get (Sample.get "/")] in
  resolve (w_fs w) (w_cwd w) (Path.dirname Sample.script) = inr Sample.docs_dir
  /\ w_fs w !! Sample.docs_dir = Some Dir
  /\ stat (w_fs w) Sample.docs_dir (html_path Sample.script) = inl ENOENT
  /\ exists did,
       main (R := Sample.responder) Sample.script events w
       = (Exit 1, log did (set_cwd Sample.docs_dir w))
       /\ forallb (fun x => negb (is_bind x)) did = true.
Proof.
  intros w events.
  assert (Hd : resolve (w_fs w) (w_cwd w) (Path.dirname Sample.script)
               = inr Sample.docs_dir) by (vm_compute; reflexivity).
  assert (Hdir : w_fs w !! Sample.docs_dir = Some Dir) by (vm_compute; reflexivity).
  assert (Hs : stat (w_fs w) Sample.docs_dir (html_path Sample.script) = inl ENOENT)
    by (vm_compute; reflexivity).
  split; [exact Hd |]. split; [exact Hdir |]. split; [exact Hs |].
  destruct (missing_artifact_exits Sample.script (R := Sample.responder)
              events w Sample.docs_dir ENOENT Hd Hdir Hs)
    as (did & Hmain & _ & _ & _ & _ & Hbind & _).
  exists did. split; [exact Hmain | exact Hbind].
Defined.

Lemma other_paths_delegated_witness :
  let w := Sample.serving Sample.built in
  let self := Sample.get "/build.js" in
  path self <> "/"
  /\ path self <> "/index.html"
  /\ do_GET (R := Sample.responder) Sample.script self w
     = super_do_GET (R := Sample.responder) self w.
Proof.
  intros w self.
  assert (H1 : path self <> "/") by (vm_compute; discriminate).
  assert (H2 : path self <> "/index.html") by (vm_compute; discriminate).
  split; [exact H1 |]. split; [exact H2 |].
  exact (proj1 (other_paths_delegated Sample.script (R := Sample.responder)
                  (S := sample_responder_standard) w self H1 H2)).
Defined.

Lemma interrupt_shuts_down_witness :
  let w := Sample.boot Sample.built true in
  let rs := [Sample.get "/"] in
  let rest := [Get (Sample.get "/build.js")] in
  resolve (w_fs w) (w_cwd w) (Path.dirname Sample.script) = inr Sample.docs_dir
  /\ w_fs w !! Sample.docs_dir = Some Dir
  /\ stat (w_fs w) Sample.docs_dir (html_path Sample.script) = inr (File Sample.artifact)
  /\ existsb (Z.eqb PORT) (w_busy w) = false
  /\ exit_status
       (main (R := Sample.responder) Sample.script (map Get rs ++ Interrupt :: rest) w).1
     = Some 0.
Proof.
  intros w rs rest.
  assert (Hd : resolve (w_fs w) (w_cwd w) (Path.dirname Sample.script)
               = inr Sample.docs_dir) by (vm_compute; reflexivity).
  assert (Hdir : w_fs w !! Sample.docs_dir = Some Dir) by (vm_compute; reflexivity).
  assert (Hs : stat (w_fs w) Sample.docs_dir (html_path Sample.script)
               = inr (File Sample.artifact)) by (vm_compute; reflexivity).
  assert (Hport : existsb (Z.eqb PORT) (w_busy w) = false) by reflexivity.
  split; [exact Hd |]. split; [exact Hdir |]. split; [exact Hs |].
  split; [exact Hport |].
  exact (proj1 (proj2 (proj2 (proj2
           (interrupt_shuts_down Sample.script (R := Sample.responder)
              rs rest w Sample.docs_dir (File Sample.artifact) Hd Hdir Hs Hport))))).
Defined.

Lemma root_get_idempotent_witness :
  let w := Sample.serving Sample.built in
  let self := Sample.get "/" in
  path self = "/"
  /\ stat (w_fs w) (w_cwd w) (html_path Sample.script) = inr (File Sample.artifact)
  /\ exists sent,
       do_GET (R := Sample.responder) Sample.script self w = (Ok tt, log sent w)
       /\ do_GET (R := Sample.responder) Sample.script self (log sent w)
          = (Ok tt, log sent (log sent w)).
Proof.
  intros w self.
  assert (Hp : path self = "/") by reflexivity.
  assert (Hs : stat (w_fs w) (w_cwd w) (html_path Sample.script)
               = inr (File Sample.artifact)) by (vm_compute; reflexivity).
  split; [exact Hp |]. split; [exact Hs |].
  destruct (root_get_idempotent Sample.script (R := Sample.responder)
              w self Sample.artifact Hp Hs) as (sent & H1 & H2 & _).
  exists sent. split; [exact H1 | exact H2].
Defined.

Lemma fixed_port_serves_until_interrupted_witness :
  let w := Sample.boot Sample.built true in
  let rs := [Sample.get "/"; Sample.get "/nowhere"] in
  resolve (w_fs w) (w_cwd w) (Path.dirname Sample.script) = inr Sample.docs_dir
  /\ w_fs w !! Sample.docs_dir = Some Dir
  /\ stat (w_fs w) Sample.docs_dir (html_path Sample.script) = inr (File Sample.artifact)
  /\ existsb (Z.eqb PORT) (w_busy w) = false
  /\ w_listen (main (R := Sample.responder) Sample.script (map Get rs) w).2
     = Some ("", 8080).
Proof.
  intros w rs.
  assert (Hd : resolve (w_fs w) (w_cwd w) (Path.dirname Sample.script)
               = inr Sample.docs_dir) by (vm_compute; reflexivity).
  assert (Hdir : w_fs w !! Sample.docs_dir = Some Dir) by (vm_compute; reflexivity).
  assert (Hs : stat (w_fs w) Sample.docs_dir (html_path Sample.script)
               = inr (File Sample.artifact)) by (vm_compute; reflexivity).
  assert (Hport : existsb (Z.eqb PORT) (w_busy w) = false) by reflexivity.
  split; [exact Hd |]. split; [exact Hdir |]. split; [exact Hs |].
  split; [exact Hport |].
  exact (proj1 (proj2 (proj2
           (fixed_port_serves_until_interrupted Sample.script (R := Sample.responder)
              rs w Sample.docs_dir (File Sample.artifact) Hd Hdir Hs Hport)))).
Defined.

Lemma browser_failure_not_fatal_witness :
  let w := Sample.boot Sample.built true in
  let rs := [Sample.get "/"] in
  resolve (w_fs w) (w_cwd w) (Path.dirname Sample.script) = inr Sample.docs_dir
  /\ w_fs w !! Sample.docs_dir = Some Dir
  /\ stat (w_fs w) Sample.docs_dir (html_path Sample.script) = inr (File Sample.artifact)
  /\ existsb (Z.eqb PORT) (w_busy w) = false
  /\ main (R := Sample.responder) Sample.script (map Get rs) (set_browser false w)
     = (Pending,
        log (startup Sample.docs_dir (html_path Sample.script) false
             ++ served (R := Sample.responder) Sample.script (w_fs w) Sample.docs_dir rs)
            (set_listen (Some ("", PORT))
               (set_cwd Sample.docs_dir (set_browser false w)))).
Proof.
  intros w rs.
  assert (Hd : resolve (w_fs w) (w_cwd w) (Path.dirname Sample.script)
               = inr Sample.docs_dir) by (vm_compute; reflexivity).
  assert (Hdir : w_fs w !! Sample.docs_dir = Some Dir) by (vm_compute; reflexivity).
  assert (Hs : stat (w_fs w) Sample.docs_dir (html_path Sample.script)
               = inr (File Sample.artifact)) by (vm_compute; reflexivity).
  assert (Hport : existsb (Z.eqb PORT) (w_busy w) = false) by reflexivity.
  split; [exact Hd |]. split; [exact Hdir |]. split; [exact Hs |].
  split; [exact Hport |].
  exact (proj1 (browser_failure_not_fatal Sample.script (R := Sample.responder)
                  rs w Sample.docs_dir (File Sample.artifact) Hd Hdir Hs Hport false)).
Defined.

Lemma absent_artifact_falls_through_witness :
  let w := Sample.serving Sample.unbuilt in
  let self := Sample.get "/" in
  (path self = "/" \/ path self = "/index.html")
  /\ stat (w_fs w) (w_cwd w) (html_path Sample.script) = inl ENOENT
  /\ do_GET (R := Sample.responder) Sample.script self w
     = super_do_GET (R := Sample.responder) self
         (log [Stat (html_path Sample.script) false] w).
Proof.
  intros w self.
  assert (Hp : path self = "/" \/ path self = "/index.html")
    by (left; reflexivity).
  assert (Hs : stat (w_fs w) (w_cwd w) (html_path Sample.script) = inl ENOENT)
    by (vm_compute; reflexivity).
  split; [exact Hp |]. split; [exact Hs |].
  exact (proj1 (absent_artifact_falls_through Sample.script (R := Sample.responder)
                  w self ENOENT Hp Hs)).
Defined.

Lemma exact_path_match_witness :
  let w := Sample.serving Sample.built in
  let self := Sample.get "/INDEX.HTML" in
  In (path self) ["/?q=1"; "/index.html?x=1"; "//"; "/INDEX.HTML"]
  /\ do_GET (R := Sample.responder) Sample.script self w
     = super_do_GET (R := Sample.responder) self w.
Proof.
  intros w self.
  assert (Hin : In (path self) ["/?q=1"; "/index.html?x=1"; "//"; "/INDEX.HTML"])
    by (simpl; tauto).
  split; [exact Hin |].
  exact (proj1 (proj2 (proj2
           (exact_path_match Sample.script (R := Sample.responder) w self))) Hin).
Defined.

(** A GET of ["//"] as a client sends it: the handler is given ["/"]
    and answers with the documentation, which is not what the static
    responder answers, neither for ["/"] nor for ["//"]. *)
Lemma double_slash_target_gets_artifact :
  let w := Sample.serving Sample.built in
  let hp := html_path Sample.script in
  handle_one_request (R := Sample.responder) Sample.script "//" [] w
  = (Ok tt,
     log [Stat hp true; Wire (SendResponse 200);
          Wire (SendHeader "Content-type" "text/html"); Wire EndHeaders;
          ReadFile hp; Wire (WfileWrite Sample.artifact)] w)
  /\ handle_one_request (R := Sample.responder) Sample.script "//" [] w
     <> super_do_GET (R := Sample.responder) (Sample.get "//") w
  /\ handle_one_request (R := Sample.responder) Sample.script "//" [] w
     <> super_do_GET (R := Sample.responder) (Sample.get "/") w.
Proof.
  intros w hp.
  assert (Hs : stat (w_fs w) (w_cwd w) hp = inr (File Sample.artifact))
    by (vm_compute; reflexivity).
  assert (Hrun : handle_one_request (R := Sample.responder) Sample.script "//" [] w
                 = (Ok tt,
                    log [Stat hp true; Wire (SendResponse 200);
                         Wire (SendHeader "Content-type" "text/html");
                         Wire EndHeaders;
                         ReadFile hp; Wire (WfileWrite Sample.artifact)] w)).
  { unfold handle_one_request. change (parse_request_path "//") with "/".
    by apply do_GET_file. }
  split; [exact Hrun |]. rewrite Hrun.
  split; intros Heq; symmetry in Heq; by apply super_do_GET_no_stat in Heq.
Qed.

Lemma chdir_to_script_directory_witness :
  let w := Sample.boot Sample.built true in
  let events := [Get (Sample.get "/build.js"); Interrupt] in
  resolve (w_fs w) (w_cwd w) (Path.dirname Sample.script) = inr Sample.docs_dir
  /\ w_fs w !! Sample.docs_dir = Some Dir
  /\ w_cwd (main (R := Sample.responder) Sample.script events w).2 = Sample.docs_dir.
Proof.
  intros w events.
  assert (Hd : resolve (w_fs w) (w_cwd w) (Path.dirname Sample.script)
               = inr Sample.docs_dir) by (vm_compute; reflexivity).
  assert (Hdir : w_fs w !! Sample.docs_dir = Some Dir) by (vm_compute; reflexivity).
  split; [exact Hd |]. split; [exact Hdir |].
  exact (proj1 (proj2 (chdir_to_script_directory Sample.script (R := Sample.responder)
                         events w Sample.docs_dir Hd Hdir))).
Defined.

(** * Further properties of the script *)

(** ** Where the documentation is looked for *)

Lemma list_ascii_of_string_append a b :
  list_ascii_of_string (a +:+ b) = list_ascii_of_string a ++ list_ascii_of_string b.
Proof. induction a as [|c a IH]; cbn; [done | by rewrite <- IH]. Qed.

Lemma split_sep_nonempty cs : Path.split_sep cs <> [].
Proof.
  destruct cs as [|c cs]; cbn; [done |].
  destruct (Path.is_sep c); [done |]. by destruct (Path.split_sep cs).
Qed.

(** Splitting distributes over a separator. *)
Lemma split_sep_at_sep a b :
  Path.split_sep (a ++ "/"%char :: b) = Path.split_sep a ++ Path.split_sep b.
Proof.
  induction a as [|c a IH]; cbn [app Path.split_sep]; [done |].
  rewrite IH. destruct (Path.is_sep c); [done |].
  pose proof (split_sep_nonempty a) as Hne.
  by destruct (Path.split_sep a).
Qed.

Lemma components_join dir b :
  dir <> "" ->
  Path.endswith_sep dir = false ->
  Path.startswith_sep b = false ->
  Path.join dir b = dir +:+ "/" +:+ b
  /\ Path.components (Path.join dir b) = Path.components dir ++ Path.components b.
Proof.
  intros Hne Hend Hb.
  assert (Hj : Path.join dir b = dir +:+ "/" +:+ b).
  { unfold Path.join. rewrite Hb, Hend.
    destruct dir; [done | reflexivity]. }
  split; [done |]. rewrite Hj. unfold Path.components.
  rewrite !list_ascii_of_string_append.
  change (list_ascii_of_string "/") with ["/"%char]. cbn [app].
  by rewrite split_sep_at_sep, map_app.
Qed.

Lemma startswith_sep_append a b :
  a <> "" -> Path.startswith_sep (a +:+ b) = Path.startswith_sep a.
Proof. by destruct a. Qed.

Lemma eqb_append_empty a b : a <> "" -> String.eqb (a +:+ b) "" = false.
Proof. by destruct a. Qed.

(** Walking a path in two legs. *)
Lemma walk_app fs cur c1 c2 :
  walk fs cur (c1 ++ c2)
  = match walk fs cur c1 with
    | inl e => inl e
    | inr q => walk fs q c2
    end.
Proof.
  revert cur. induction c1 as [|c c1 IH]; intros cur; cbn [app walk]; [done |].
  destruct (fs !! cur) as [[bs|]|]; [done | | done].
  destruct (_ || _); [apply IH |]. destruct (String.eqb c ".."); apply IH.
Qed.

(** The three steps from the directory of the script to the file. *)
Lemma walk_to_artifact fs d :
  fs !! d = Some Dir ->
  fs !! removelast d = Some Dir ->
  fs !! (removelast d ++ ["dist"]) = Some Dir ->
  walk fs d [".."; "dist"; "gitcells-docs.html"]
  = inr (removelast d ++ ["dist"; "gitcells-docs.html"]).
Proof.
  intros H1 H2 H3. cbn [walk]. rewrite H1.
  change (String.eqb ".." "" || String.eqb ".." ".") with false.
  change (String.eqb ".." "..") with true. cbv iota.
  rewrite H2.
  change (String.eqb "dist" "" || String.eqb "dist" ".") with false.
  change (String.eqb "dist" "..") with false. cbv iota.
  rewrite H3.
  change (String.eqb "gitcells-docs.html" "" || String.eqb "gitcells-docs.html" ".")
    with false.
  change (String.eqb "gitcells-docs.html" "..") with false. cbv iota.
  by rewrite <- app_assoc.
Qed.

Lemma html_path_components __file__ :
  Path.dirname __file__ <> "" ->
  Path.endswith_sep (Path.dirname __file__) = false ->
  String.eqb (html_path __file__) "" = false
  /\ Path.startswith_sep (html_path __file__)
     = Path.startswith_sep (Path.dirname __file__)
  /\ Path.components (html_path __file__)
     = Path.components (Path.dirname __file__)
       ++ [".."; "dist"; "gitcells-docs.html"].
Proof.
  intros Hne Hend. unfold html_path.
  destruct (components_join (Path.dirname __file__) "../dist/gitcells-docs.html"
              Hne Hend eq_refl) as [Hj Hc].
  rewrite Hc, Hj.
  split; [by apply eqb_append_empty |]. split; [by apply startswith_sep_append | done].
Qed.

Lemma resolve_nonempty fs cwd p :
  p <> "" ->
  resolve fs cwd p
  = walk fs (if Path.startswith_sep p then [] else cwd) (Path.components p).
Proof. intros Hp. unfold resolve. by destruct p. Qed.

Section Location.

Context (__file__ : string) {R : StaticResponder}.

(** X1. ["../dist/gitcells-docs.html"] joined to the directory part of
    the script path names the file [gitcells-docs.html] in the
    directory [dist] beside the directory of the script: from wherever
    the directory part resolves to [d], the path resolves to
    [dist/gitcells-docs.html] under the parent of [d], and the check
    sees what is there. *)
Theorem artifact_beside_script_directory fs cwd d :
  Path.dirname __file__ <> "" ->
  Path.endswith_sep (Path.dirname __file__) = false ->
  resolve fs cwd (Path.dirname __file__) = inr d ->
  fs !! d = Some Dir ->
  fs !! removelast d = Some Dir ->
  fs !! (removelast d ++ ["dist"]) = Some Dir ->
  resolve fs cwd (html_path __file__)
  = inr (removelast d ++ ["dist"; "gitcells-docs.html"])
  /\ stat fs cwd (html_path __file__)
     = match fs !! (removelast d ++ ["dist"; "gitcells-docs.html"]) with
       | Some n => inr n
       | None => inl ENOENT
       end.
Proof.
  intros Hne Hend Hd H1 H2 H3.
  destruct (html_path_components __file__ Hne Hend) as (He & Hs & Hc).
  assert (Hr : resolve fs cwd (html_path __file__)
               = inr (removelast d ++ ["dist"; "gitcells-docs.html"])).
  { rewrite resolve_nonempty in Hd by done.
    unfold resolve. rewrite He, Hs, Hc, walk_app, Hd.
    by apply walk_to_artifact. }
  split; [done |]. unfold stat. by rewrite Hr.
Qed.

(** X2. When the directory part of the script path names nothing as
    seen from inside the directory of the script (a relative script
    path, as [docs/view.py] started from the checkout), the check made
    after the change of directory fails, and the process prints the
    guidance and ends with status 1, whatever the checkout holds. *)
Theorem relative_script_path_stops_at_check events w d e :
  Path.dirname __file__ <> "" ->
  Path.endswith_sep (Path.dirname __file__) = false ->
  resolve (w_fs w) (w_cwd w) (Path.dirname __file__) = inr d ->
  w_fs w !! d = Some Dir ->
  stat (w_fs w) d (Path.dirname __file__) = inl e ->
  main __file__ events w
  = (Exit 1,
     log (Chdir d :: banner ++ Stat (html_path __file__) false :: guidance)
         (set_cwd d w)).
Proof.
  intros Hne Hend Hd Hdir Hst.
  destruct (html_path_components __file__ Hne Hend) as (He & Hs & Hc).
  assert (Hmiss : exists e', stat (w_fs w) d (html_path __file__) = inl e').
  { unfold stat in *. rewrite resolve_nonempty in Hst by done.
    unfold resolve. rewrite He, Hs, Hc, walk_app.
    destruct (walk _ _ (Path.components _)) as [e0|q]; [eauto |].
    cbn [walk]. destruct (w_fs w !! q) as [[bs|]|]; [eauto | discriminate | eauto]. }
  destruct Hmiss as [e' He'].
  by apply (main_unbuilt __file__ events w d e').
Qed.

End Location.

(** ** A script path without a directory part *)

Lemma drop_while_all {A} (f : A -> bool) xs :
  forallb f xs = true -> Path.drop_while f xs = [].
Proof.
  induction xs as [|x xs IH]; cbn; [done |].
  destruct (f x); [done | discriminate].
Qed.

Lemma dirname_bare_name p :
  forallb (fun c => negb (Path.is_sep c)) (list_ascii_of_string p) = true ->
  Path.dirname p = "".
Proof.
  intros Hp. unfold Path.dirname, Path.head_upto_sep.
  rewrite drop_while_all; [done |]. by rewrite forallb_rev.
Qed.

Lemma bind_raises {A B} (c : M A) (k : A -> M B) w e w' :
  c w = (Raise e, w') -> (c ≫= k) w = (Raise e, w').
Proof. intros Hc. unfold mbind, M_bind, bind. by rewrite Hc. Qed.

Section Outcomes.

Context (__file__ : string) {R : StaticResponder}.

Implicit Types (w : world) (d : fs_path).

(** X3. A script path with no ['/'] in it has an empty directory part;
    [os.chdir('')] fails, and the process ends there with the
    exception: nothing printed, nothing looked up, no port taken, the
    world as it was. *)
Theorem bare_script_name_fails_at_chdir events w :
  forallb (fun c => negb (Path.is_sep c)) (list_ascii_of_string __file__) = true ->
  main __file__ events w = (Raise (OSError ENOENT), w)
  /\ exit_status (main __file__ events w).1 = Some 1.
Proof.
  intros Hbare.
  assert (Hm : main __file__ events w = (Raise (OSError ENOENT), w)).
  { unfold main. apply bind_raises.
    by rewrite (dirname_bare_name __file__ Hbare). }
  by rewrite Hm.
Qed.

(** Every way a run of the script can go. *)
Lemma main_cases events w :
  (exists e, main __file__ events w = (Raise (OSError e), w))
  \/ exists d,
       resolve (w_fs w) (w_cwd w) (Path.dirname __file__) = inr d
       /\ w_fs w !! d = Some Dir
       /\ ((exists e,
              stat (w_fs w) d (html_path __file__) = inl e
              /\ main __file__ events w
                 = (Exit 1,
                    log (Chdir d :: banner
                         ++ Stat (html_path __file__) false :: guidance)
                        (set_cwd d w)))
           \/ (exists n,
                 stat (w_fs w) d (html_path __file__) = inr n
                 /\ existsb (Z.eqb PORT) (w_busy w) = true
                 /\ main __file__ events w
                    = (Raise (OSError EADDRINUSE),
                       log (Chdir d :: banner
                            ++ [Stat (html_path __file__) true;
                                OpenBrowser "http://localhost:8080" (w_browser w)])
                           (set_cwd d w)))
           \/ (exists n rs,
                 stat (w_fs w) d (html_path __file__) = inr n
                 /\ events = map Get rs
                 /\ main __file__ events w
                    = (Pending,
                       log (startup d (html_path __file__) (w_browser w)
                            ++ served __file__ (w_fs w) d rs)
                           (set_listen (Some ("", PORT)) (set_cwd d w))))
           \/ (exists n rs rest,
                 stat (w_fs w) d (html_path __file__) = inr n
                 /\ events = map Get rs ++ Interrupt :: rest
                 /\ main __file__ events w
                    = (Ok tt,
                       log (startup d (html_path __file__) (w_browser w)
                            ++ served __file__ (w_fs w) d rs
                            ++ [farewell; CloseSocket])
                           (set_listen None (set_cwd d w))))).
Proof.
  destruct (resolve (w_fs w) (w_cwd w) (Path.dirname __file__)) as [e0|d] eqn:Hd.
  { left. apply main_no_chdir. intros d Hd'. congruence. }
  destruct (w_fs w !! d) as [[bs|]|] eqn:Hdir.
  1, 3: left; apply main_no_chdir; intros d' Hd'; congruence.
  right. exists d. split; [done |]. split; [done |].
  destruct (stat (w_fs w) d (html_path __file__)) as [e|n] eqn:Hs.
  { left. exists e. split; [done |]. by apply (main_unbuilt _ _ _ _ e). }
  right.
  destruct (existsb (Z.eqb PORT) (w_busy w)) eqn:Hport.
  { left. exists n. split; [done |]. split; [done |]. by apply (main_busy _ _ _ _ n). }
  right.
  destruct (events_shape events) as [[rs ->] | (rs & rest & ->)].
  - left. exists n, rs. split; [done |]. split; [done |].
    by apply (main_serving _ _ _ _ n).
  - right. exists n, rs, rest. split; [done |]. split; [done |].
    by apply (main_interrupted _ _ _ _ _ n).
Qed.

End Outcomes.

Lemma listen_set_cwd d w : w_listen (set_cwd d w) = w_listen w.
Proof. reflexivity. Qed.

(** ** How a run ends *)

Section Endings.

Context (__file__ : string) {R : StaticResponder}.

Implicit Types (w : world) (d : fs_path) (self : request).

(** X4. [os.path.exists] is true of a directory too: when the
    documentation path names a directory, a GET of ["/"] or
    ["/index.html"] sends status 200 and the [Content-type] header,
    ends the headers, and then fails in [open] without a byte of body:
    exactly those three things go over the connection, in that order.
    The serve loop drops the exception and goes on. *)
Theorem directory_artifact_sends_headers_then_fails w self :
  path self = "/" \/ path self = "/index.html" ->
  stat (w_fs w) (w_cwd w) (html_path __file__) = inr Dir ->
  do_GET __file__ self w
  = (Raise (OSError EISDIR),
     log [Stat (html_path __file__) true;
          Wire (SendResponse 200);
          Wire (SendHeader "Content-type" "text/html");
          Wire EndHeaders] w)
  /\ wire_of (w_trace (do_GET __file__ self w).2)
     = wire_of (w_trace w)
       ++ [SendResponse 200; SendHeader "Content-type" "text/html"; EndHeaders]
  /\ process_request (do_GET __file__ self) w
     = (Ok tt,
        log [Stat (html_path __file__) true;
             Wire (SendResponse 200);
             Wire (SendHeader "Content-type" "text/html");
             Wire EndHeaders] w)
  /\ exists sent,
       do_GET __file__ self w = (Raise (OSError EISDIR), log sent w)
       /\ wire_of sent
          = [SendResponse 200; SendHeader "Content-type" "text/html"; EndHeaders]
       /\ status_of (wire_of sent) = Some 200
       /\ headers_of (wire_of sent) = [("Content-type", "text/html")]
       /\ body_of (wire_of sent) = []
       /\ process_request (do_GET __file__ self) w = (Ok tt, log sent w).
Proof.
  intros Hp Hs. apply is_doc_path_true in Hp.
  unfold process_request. rewrite (do_GET_directory __file__ self w Hp Hs).
  split; [reflexivity |]. split.
  - cbn [snd]. by rewrite trace_log, wire_of_app.
  - split; [reflexivity |]. eexists. by repeat split.
Qed.

(** X5. For the two documentation paths the answer does not depend on
    the request: which of the two paths it names and what headers it
    carries change nothing while the documentation file is there. *)
Theorem doc_answer_ignores_request w self1 self2 bs :
  path self1 = "/" \/ path self1 = "/index.html" ->
  path self2 = "/" \/ path self2 = "/index.html" ->
  stat (w_fs w) (w_cwd w) (html_path __file__) = inr (File bs) ->
  do_GET __file__ self1 w = do_GET __file__ self2 w.
Proof.
  intros H1 H2 Hs. apply is_doc_path_true in H1, H2.
  by rewrite (do_GET_file __file__ self1 w bs H1 Hs),
             (do_GET_file __file__ self2 w bs H2 Hs).
Qed.

(** X6. When port 8080 is taken, the constructor's exception is not
    caught: the process ends with status 1 after the banner, and after
    the browser has already been sent to the address; nothing is
    served, no shutdown notice is printed, no socket is held. *)
Theorem busy_port_fails_after_browser events w d n :
  resolve (w_fs w) (w_cwd w) (Path.dirname __file__) = inr d ->
  w_fs w !! d = Some Dir ->
  stat (w_fs w) d (html_path __file__) = inr n ->
  existsb (Z.eqb PORT) (w_busy w) = true ->
  exists did,
    main __file__ events w = (Raise (OSError EADDRINUSE), log did (set_cwd d w))
    /\ exit_status (main __file__ events w).1 = Some 1
    /\ In (OpenBrowser "http://localhost:8080" (w_browser w)) did
    /\ stdout_of did = stdout_of banner
    /\ wire_of did = []
    /\ forallb (fun x => negb (is_bind x)) did = true
    /\ w_listen (main __file__ events w).2 = w_listen w.
Proof.
  intros Hd Hdir Hs Hport.
  rewrite (main_busy __file__ events w d n Hd Hdir Hs Hport).
  eexists. split; [reflexivity |]. split; [reflexivity |].
  split; [cbn; tauto |]. by repeat split.
Qed.

(** X7. Status 0 comes only by way of the interrupt: a run that ends
    with status 0 had an interrupt among its events, ends with the
    shutdown notice and the closing of the socket, and holds no socket
    any more. *)
Theorem status_zero_only_after_interrupt events w :
  exit_status (main __file__ events w).1 = Some 0 ->
  In Interrupt events
  /\ w_listen (main __file__ events w).2 = None
  /\ exists before,
       w_trace (main __file__ events w).2 = before ++ [farewell; CloseSocket].
Proof.
  intros Hzero.
  destruct (main_cases __file__ events w)
    as [[e Hm] | (d & Hd & Hdir &
         [(e & _ & Hm) | [(n & _ & _ & Hm) | [(n & rs & _ & _ & Hm)
                                            | (n & rs & rest & _ & -> & Hm)]]])];
    rewrite Hm in *; cbn [fst snd exit_status] in *; try discriminate.
  split; [apply in_or_app; right; by left |].
  split; [reflexivity |].
  exists (w_trace w ++ startup d (html_path __file__) (w_browser w)
          ++ served __file__ (w_fs w) d rs).
  rewrite trace_log, trace_set_listen, trace_set_cwd.
  by rewrite <- !app_assoc.
Qed.

(** X8. The port is held exactly while the process is in the serve
    loop: started without a socket, the process has the socket on
    [("", 8080)] if and only if it is still running, and whenever it
    has ended, by whatever way, it holds none. *)
Theorem port_held_exactly_while_serving events w :
  w_listen w = None ->
  (w_listen (main __file__ events w).2 = Some ("", PORT)
   <-> (main __file__ events w).1 = Pending)
  /\ ((main __file__ events w).1 <> Pending ->
      w_listen (main __file__ events w).2 = None).
Proof.
  intros Hnone.
  destruct (main_cases __file__ events w)
    as [[e Hm] | (d & Hd & Hdir &
         [(e & _ & Hm) | [(n & _ & _ & Hm) | [(n & rs & _ & _ & Hm)
                                            | (n & rs & rest & _ & _ & Hm)]]])];
    rewrite Hm; cbn [fst snd];
    rewrite ?listen_log, ?listen_set_listen, ?listen_set_cwd, ?Hnone;
    (split; [split |]); done.
Qed.

(** X9. Requests are answered one by one in the order they arrive, and
    an answer does not depend on the requests before it, failed ones
    included: the trace of a longer run is the trace of the shorter
    one followed by the answers to the further requests, each as the
    handler gives it in the directory of the script. *)
Theorem answers_in_arrival_order rs1 rs2 w d n :
  resolve (w_fs w) (w_cwd w) (Path.dirname __file__) = inr d ->
  w_fs w !! d = Some Dir ->
  stat (w_fs w) d (html_path __file__) = inr n ->
  existsb (Z.eqb PORT) (w_busy w) = false ->
  w_trace (main __file__ (map Get (rs1 ++ rs2)) w).2
  = w_trace (main __file__ (map Get rs1) w).2
    ++ flat_map (fun r => w_trace (do_GET __file__ r (blank (w_fs w) d)).2) rs2.
Proof.
  intros Hd Hdir Hs Hport.
  rewrite !(main_serving __file__ _ w d n Hd Hdir Hs Hport).
  cbn [snd]. rewrite !trace_log. unfold served.
  rewrite flat_map_app, <- !app_assoc. reflexivity.
Qed.

End Endings.

(** ** The further properties at work on the sample installation *)

Lemma artifact_beside_script_directory_witness :
  let fs := Sample.built in
  let cwd := ["home"] in
  let d := Sample.docs_dir in
  Path.dirname Sample.script <> ""
  /\ Path.endswith_sep (Path.dirname Sample.script) = false
  /\ resolve fs cwd (Path.dirname Sample.script) = inr d
  /\ fs !! d = Some Dir
  /\ fs !! removelast d = Some Dir
  /\ fs !! (removelast d ++ ["dist"]) = Some Dir
  /\ resolve fs cwd (html_path Sample.script)
     = inr (removelast d ++ ["dist"; "gitcells-docs.html"]).
Proof.
  intros fs cwd d.
  assert (Hne : Path.dirname Sample.script <> "") by (vm_compute; discriminate).
  assert (Hend : Path.endswith_sep (Path.dirname Sample.script) = false)
    by (vm_compute; reflexivity).
  assert (Hd : resolve fs cwd (Path.dirname Sample.script) = inr d)
    by (vm_compute; reflexivity).
  assert (H1 : fs !! d = Some Dir) by (vm_compute; reflexivity).
  assert (H2 : fs !! removelast d = Some Dir) by (vm_compute; reflexivity).
  assert (H3 : fs !! (removelast d ++ ["dist"]) = Some Dir)
    by (vm_compute; reflexivity).
  repeat (split; [assumption |]).
  exact (proj1 (artifact_beside_script_directory Sample.script fs cwd d
                  Hne Hend Hd H1 H2 H3)).
Defined.

Lemma relative_script_path_stops_at_check_witness :
  let script := "docs/view.py" in
  let w := World Sample.built ["srv"; "gitcells"] [] true [] None [] in
  let d := Sample.docs_dir in
  Path.dirname script <> ""
  /\ Path.endswith_sep (Path.dirname script) = false
  /\ resolve (w_fs w) (w_cwd w) (Path.dirname script) = inr d
  /\ w_fs w !! d = Some Dir
  /\ stat (w_fs w) d (Path.dirname script) = inl ENOENT
  /\ stat (w_fs w) (w_cwd w) (html_path script) = inr (File Sample.artifact)
  /\ main (R := Sample.responder) script [] w
     = (Exit 1,
        log (Chdir d :: banner ++ Stat (html_path script) false :: guidance)
            (set_cwd d w)).
Proof.
  intros script w d.
  assert (Hne : Path.dirname script <> "") by (vm_compute; discriminate).
  assert (Hend : Path.endswith_sep (Path.dirname script) = false)
    by (vm_compute; reflexivity).
  assert (Hd : resolve (w_fs w) (w_cwd w) (Path.dirname script) = inr d)
    by (vm_compute; reflexivity).
  assert (Hdir : w_fs w !! d = Some Dir) by (vm_compute; reflexivity).
  assert (Hst : stat (w_fs w) d (Path.dirname script) = inl ENOENT)
    by (vm_compute; reflexivity).
  assert (Hthere : stat (w_fs w) (w_cwd w) (html_path script)
                   = inr (File Sample.artifact)) by (vm_compute; reflexivity).
  repeat (split; [assumption |]).
  exact (relative_script_path_stops_at_check script (R := Sample.responder)
           [] w d ENOENT Hne Hend Hd Hdir Hst).
Defined.

Lemma bare_script_name_fails_at_chdir_witness :
  let w := Sample.boot Sample.built true in
  forallb (fun c => negb (Path.is_sep c)) (list_ascii_of_string "view.py") = true
  /\ main (R := Sample.responder) "view.py" [Get (Sample.get "/")] w
     = (Raise (OSError ENOENT), w).
Proof.
  intros w.
  assert (Hbare : forallb (fun c => negb (Path.is_sep c))
                    (list_ascii_of_string "view.py") = true) by reflexivity.
  split; [exact Hbare |].
  exact (proj1 (bare_script_name_fails_at_chdir "view.py" (R := Sample.responder)
                  [Get (Sample.get "/")] w Hbare)).
Defined.

Lemma directory_artifact_sends_headers_then_fails_witness :
  let fs := <[ ["srv"; "gitcells"; "dist"; "gitcells-docs.html"] := Dir ]> Sample.unbuilt in
  let w := Sample.serving fs in
  let self := Sample.get "/" in
  (path self = "/" \/ path self = "/index.html")
  /\ stat (w_fs w) (w_cwd w) (html_path Sample.script) = inr Dir
  /\ wire_of (w_trace (do_GET (R := Sample.responder) Sample.script self w).2)
     = wire_of (w_trace w)
       ++ [SendResponse 200; SendHeader "Content-type" "text/html"; EndHeaders].
Proof.
  intros fs w self.
  assert (Hp : path self = "/" \/ path self = "/index.html") by (left; reflexivity).
  assert (Hs : stat (w_fs w) (w_cwd w) (html_path Sample.script) = inr Dir)
    by (vm_compute; reflexivity).
  split; [exact Hp |]. split; [exact Hs |].
  exact (proj1 (proj2
           (directory_artifact_sends_headers_then_fails Sample.script
              (R := Sample.responder) w self Hp Hs))).
Defined.

Lemma doc_answer_ignores_request_witness :
  let w := Sample.serving Sample.built in
  let self1 := Request "/" [("If-Modified-Since", "Thu, 01 Jan 2099 00:00:00 GMT")] in
  let self2 := Sample.get "/index.html" in
  (path self1 = "/" \/ path self1 = "/index.html")
  /\ (path self2 = "/" \/ path self2 = "/index.html")
  /\ stat (w_fs w) (w_cwd w) (html_path Sample.script) = inr (File Sample.artifact)
  /\ do_GET (R := Sample.responder) Sample.script self1 w
     = do_GET (R := Sample.responder) Sample.script self2 w.
Proof.
  intros w self1 self2.
  assert (H1 : path self1 = "/" \/ path self1 = "/index.html") by (left; reflexivity).
  assert (H2 : path self2 = "/" \/ path self2 = "/index.html") by (right; reflexivity).
  assert (Hs : stat (w_fs w) (w_cwd w) (html_path Sample.script)
               = inr (File Sample.artifact)) by (vm_compute; reflexivity).
  repeat (split; [assumption |]).
  exact (doc_answer_ignores_request Sample.script (R := Sample.responder)
           w self1 self2 Sample.artifact H1 H2 Hs).
Defined.

Lemma busy_port_fails_after_browser_witness :
  let w := World Sample.built ["home"] [] true [8080] None [] in
  let d := Sample.docs_dir in
  resolve (w_fs w) (w_cwd w) (Path.dirname Sample.script) = inr d
  /\ w_fs w !! d = Some Dir
  /\ stat (w_fs w) d (html_path Sample.script) = inr (File Sample.artifact)
  /\ existsb (Z.eqb PORT) (w_busy w) = true
  /\ exit_status (main (R := Sample.responder) Sample.script [Interrupt] w).1 = Some 1.
Proof.
  intros w d.
  assert (Hd : resolve (w_fs w) (w_cwd w) (Path.dirname Sample.script) = inr d)
    by (vm_compute; reflexivity).
  assert (Hdir : w_fs w !! d = Some Dir) by (vm_compute; reflexivity).
  assert (Hs : stat (w_fs w) d (html_path Sample.script)
               = inr (File Sample.artifact)) by (vm_compute; reflexivity).
  assert (Hport : existsb (Z.eqb PORT) (w_busy w) = true) by reflexivity.
  repeat (split; [assumption |]).
  destruct (busy_port_fails_after_browser Sample.script (R := Sample.responder)
              [Interrupt] w d (File Sample.artifact) Hd Hdir Hs Hport)
    as (did & _ & Hstatus & _).
  exact Hstatus.
Defined.

Lemma status_zero_only_after_interrupt_witness :
  let w := Sample.boot Sample.built true in
  let events := [Get (Sample.get "/"); Interrupt] in
  exit_status (main (R := Sample.responder) Sample.script events w).1 = Some 0
  /\ In Interrupt events
  /\ w_listen (main (R := Sample.responder) Sample.script events w).2 = None.
Proof.
  intros w events.
  assert (Hzero : exit_status
                    (main (R := Sample.responder) Sample.script events w).1 = Some 0)
    by (vm_compute; reflexivity).
  split; [exact Hzero |].
  destruct (status_zero_only_after_interrupt Sample.script (R := Sample.responder)
              events w Hzero) as (Hin & Hl & _).
  split; [exact Hin | exact Hl].
Defined.

Lemma port_held_exactly_while_serving_witness :
  let w := Sample.boot Sample.built true in
  let events := [Get (Sample.get "/")] in
  w_listen w = None
  /\ (w_listen (main (R := Sample.responder) Sample.script events w).2
      = Some ("", PORT)
      <-> (main (R := Sample.responder) Sample.script events w).1 = Pending).
Proof.
  intros w events.
  assert (Hnone : w_listen w = None) by reflexivity.
  split; [exact Hnone |].
  exact (proj1 (port_held_exactly_while_serving Sample.script (R := Sample.responder)
                  events w Hnone)).
Defined.

Lemma answers_in_arrival_order_witness :
  let w := Sample.boot Sample.built true in
  let d := Sample.docs_dir in
  let rs1 := [Sample.get "/"] in
  let rs2 := [Sample.get "/build.js"; Sample.get "/nowhere"] in
  resolve (w_fs w) (w_cwd w) (Path.dirname Sample.script) = inr d
  /\ w_fs w !! d = Some Dir
  /\ stat (w_fs w) d (html_path Sample.script) = inr (File Sample.artifact)
  /\ existsb (Z.eqb PORT) (w_busy w) = false
  /\ w_trace (main (R := Sample.responder) Sample.script (map Get (rs1 ++ rs2)) w).2
     = w_trace (main (R := Sample.responder) Sample.script (map Get rs1) w).2
       ++ flat_map
            (fun r => w_trace (do_GET (R := Sample.responder) Sample.script r
                                 (blank (w_fs w) d)).2) rs2.
Proof.
  intros w d rs1 rs2.
  assert (Hd : resolve (w_fs w) (w_cwd w) (Path.dirname Sample.script) = inr d)
    by (vm_compute; reflexivity).
  assert (Hdir : w_fs w !! d = Some Dir) by (vm_compute; reflexivity).
  assert (Hs : stat (w_fs w) d (html_path Sample.script)
               = inr (File Sample.artifact)) by (vm_compute; reflexivity).
  assert (Hport : existsb (Z.eqb PORT) (w_busy w) = false) by reflexivity.
  repeat (split; [assumption |]).
  exact (answers_in_arrival_order Sample.script (R := Sample.responder)
           rs1 rs2 w d (File Sample.artifact) Hd Hdir Hs Hport).
Defined.
